(** * plottr/plot/mpl.py: the matplotlib plot widget of plottr

    A shallow embedding of [src/plottr/plot/mpl.py].  The module is a thin
    adapter between a dataset container and matplotlib, so the embedding keeps
    four things explicit:

    - the Python control flow, with exceptions ([outcome]) and the mutable
      canvas object ([MPLPlot]) threaded through a small state-and-error
      monad;
    - the calls issued to matplotlib, recorded on the canvas in the order in
      which they are made ([mpl_call]): the figure content is the list of
      calls since the last [fig.clear()];
    - the kind of number that reaches matplotlib: the subplot grid of the
      two-axes plot is computed in floats ([spec_float], IEEE 754 doubles)
      and handed on as floats, everywhere else the grid is given in ints;
    - the numeric helpers of [plottr.utils.num] and the dataset conversion
      [meshgrid_to_datadict], which live outside this file and are taken as
      parameters ([Externals]). *)

From Stdlib Require Import PrimFloat SpecFloat.
From stdpp Require Import gmap strings list.

Set Default Proof Using "Type".

(** ** Python outcomes *)

Inductive pyexc : Set :=
  | ValueError
  | IndexError
  | KeyError
  | TypeError
  | ZeroDivisionError
  | NotImplementedError.

Inductive outcome (A : Type) : Type :=
  | Ok (a : A)
  | Raise (e : pyexc).
Arguments Ok {A} a.
Arguments Raise {A} e.

(** A computation over a mutable object of type [S]: the object as it is
    when the call starts, the result or the exception, and the object as the
    call leaves it.  A raise keeps every mutation made before it. *)
Definition py (S A : Type) : Type := S → outcome A * S.

Definition py_ret {S A} (a : A) : py S A := λ s, (Ok a, s).
Definition py_bind {S A B} (m : py S A) (k : A → py S B) : py S B :=
  λ s, match m s with
       | (Ok a, s') => k a s'
       | (Raise e, s') => (Raise e, s')
       end.
Definition py_raise {S A} (e : pyexc) : py S A := λ s, (Raise e, s).
Definition py_modify {S} (f : S → S) : py S () := λ s, (Ok (), f s).
Definition py_get {S} : py S S := λ s, (Ok s, s).

#[global] Instance py_mret {S} : MRet (py S) := λ A, py_ret.
#[global] Instance py_mbind {S} : MBind (py S) := λ A B k m, py_bind m k.

(** [for x in xs: body x] *)
Fixpoint py_for {S A} (xs : list A) (body : A → py S ()) : py S () :=
  match xs with
  | [] => mret ()
  | x :: xs' => body x ;; py_for xs' body
  end.

(** [xs[i]] on a Python list, for [i >= 0]. *)
Definition py_index {S A} (xs : list A) (i : nat) : py S A :=
  match xs !! i with
  | Some x => mret x
  | None => py_raise IndexError
  end.

(** [d[k]] on a Python dict. *)
Definition py_getitem {S A} (d : gmap string A) (k : string) : py S A :=
  match d !! k with
  | Some x => mret x
  | None => py_raise KeyError
  end.

(** [min(t)] on a tuple of ints; [min(())] raises [ValueError]. *)
Definition py_min {S} (t : list nat) : py S nat :=
  match t with
  | [] => py_raise ValueError
  | n :: t' => mret (foldr Nat.min n t')
  end.

(** ** Python floats

    A Python [float] and a numpy [float64] are IEEE 754 doubles: 53 bits of
    precision, exponents up to 1024.  They are kept as [spec_float], the
    specification of the primitive floats, so that a float never passes for
    an int: matplotlib tells the two apart. *)

Definition prec64 : Z := 53.
Definition emax64 : Z := 1024.

(** An int operand of a float operation is converted first, to the nearest
    double.  (Python raises [OverflowError] beyond the range of the doubles;
    the ints converted in this module are lengths of lists, far below it.) *)
Definition float_of_int (z : Z) : spec_float :=
  binary_normalize prec64 emax64 z 0 false.

(** [x ** .5], taken as the correctly rounded square root. *)
Definition py_pow_half (x : spec_float) : spec_float :=
  SFsqrt prec64 emax64 x.

(** [x // 1] on a float: the largest integral double not above [x]; of an
    infinity it is [nan]. *)
Definition py_floordiv_1 (x : spec_float) : spec_float :=
  match x with
  | S754_finite s m e =>
      if (0 <=? e)%Z then x
      else
        let q := Z.shiftr (Zpos m) (- e) in
        let exact := (Z.shiftl q (- e) =? Zpos m)%Z in
        let z := if s then (if exact then - q else - q - 1)%Z else q in
        binary_normalize prec64 emax64 z 0 s
  | S754_infinity _ => S754_nan
  | _ => x
  end.

Definition float_is_zero (x : spec_float) : bool :=
  match x with
  | S754_zero _ => true
  | _ => false
  end.

(** [n / x] for an int [n] and a float [x]. *)
Definition py_truediv {S} (n : Z) (x : spec_float) : py S spec_float :=
  if float_is_zero x then py_raise ZeroDivisionError
  else mret (SFdiv prec64 emax64 (float_of_int n) x).

(** [np.ceil(x)]: the smallest integral double not below [x]. *)
Definition np_ceil (x : spec_float) : spec_float :=
  match x with
  | S754_finite s m e =>
      if (0 <=? e)%Z then x
      else
        let q := Z.shiftr (Zpos m) (- e) in
        let exact := (Z.shiftl q (- e) =? Zpos m)%Z in
        let z := if s then (- q)%Z else (if exact then q else q + 1)%Z in
        binary_normalize prec64 emax64 z 0 s
  | _ => x
  end.

(** ** Arrays

    A numpy array of floats, possibly a masked array.  [arr_mask = None] is a
    plain [ndarray] (or a masked array with [nomask]); [Some m] marks the
    masked entries.  [astype(float)] is the identity on this type. *)

Record ndarray : Type := NdArray {
  arr_shape : list nat;
  arr_cells : list float;
  arr_mask : option (list bool)
}.

(** [g.size] *)
Definition arr_size (a : ndarray) : nat := foldr Nat.mul 1 (arr_shape a).

(** [np.ma.is_masked(a)]: a masked array with at least one masked entry. *)
Definition is_masked (a : ndarray) : bool :=
  match arr_mask a with
  | Some m => existsb id m
  | None => false
  end.

(** [a.filled(v)] *)
Definition filled (a : ndarray) (v : float) : ndarray :=
  match arr_mask a with
  | Some m =>
      {| arr_shape := arr_shape a;
         arr_cells := zip_with (λ (b : bool) c, if b then v else c) m (arr_cells a);
         arr_mask := None |}
  | None => a
  end.

(** [np.isnan(a)], [np.any], [np.all] (on the flattened boolean array). *)
Definition np_isnan (a : ndarray) : list bool := map PrimFloat.is_nan (arr_cells a).
Definition np_any (bs : list bool) : bool := existsb id bs.
Definition np_all (bs : list bool) : bool := forallb id bs.

(** ** The canvas and the calls made on it *)

(** An axes object returned by [fig.add_subplot(nrows, ncols, i)]. *)
Record axes_handle : Set := Subplot {
  sp_nrows : nat;
  sp_ncols : nat;
  sp_index : nat
}.

(** What [ax.scatter] and [ax.pcolormesh] return. *)
Inductive mappable : Set := PathCollection | QuadMesh.

Inductive mpl_call : Type :=
  | AddSubplot (nrows ncols i : nat)
  | SubplotsAdjust
  | Draw
  | AxPlot (ax : axes_handle) (x y : ndarray) (fmt label : string)
  | AxScatter (ax : axes_handle) (x y c : ndarray)
  | AxPcolormesh (ax : axes_handle) (x y z : ndarray) (cmap : string)
  | AxSetXlimMinMax (ax : axes_handle) (x : ndarray)
  | AxSetYlimMinMax (ax : axes_handle) (y : ndarray)
  | AxSetXlabel (ax : axes_handle) (s : string)
  | AxSetYlabel (ax : axes_handle) (s : string)
  | AxSetTitle (ax : axes_handle) (s : string)
  | AxLegend (ax : axes_handle)
  | Colorbar (ax : axes_handle) (im : mappable)
  | CaxSetYlabel (ax : axes_handle) (s : string).

(** The canvas [MPLPlot]: [self.axes] and what has been put on [self.fig]
    since it was last cleared. *)
Record MPLPlot : Type := Canvas {
  fig_calls : list mpl_call;
  self_axes : list axes_handle
}.

Definition mpl (c : mpl_call) : py MPLPlot () :=
  py_modify (λ p, {| fig_calls := fig_calls p ++ [c]; self_axes := self_axes p |}).

(** [self.fig.clear()] *)
Definition fig_clear : py MPLPlot () :=
  py_modify (λ p, {| fig_calls := []; self_axes := self_axes p |}).

Definition set_self_axes (axs : list axes_handle) : py MPLPlot () :=
  py_modify (λ p, {| fig_calls := fig_calls p; self_axes := axs |}).

Definition append_self_axes (ax : axes_handle) : py MPLPlot () :=
  py_modify (λ p, {| fig_calls := fig_calls p; self_axes := self_axes p ++ [ax] |}).

(** [setMplDefaults()]: fifteen assignments of constants into matplotlib's
    global [rcParams].  Nothing in this module reads them back, and the call
    touches neither the figure nor [self.axes]. *)
Definition setMplDefaults {S} : py S () := mret ().

(** [MPLPlot.autosize] *)
Definition autosize : py MPLPlot () := mpl SubplotsAdjust.

(** [clearFig] is written for any kind of number: [__init__] and the
    branches of [setData] for at most one axis call it with ints, the
    two-axes branch of [setData] calls it with floats.  It uses [nrows] and
    [ncols] twice: in the test [naxes > nrows * ncols], and as arguments of
    [self.fig.add_subplot(nrows, ncols, i)]. *)
Class GridNumber (N : Type) : Type := {
  too_many_axes : nat → N → N → bool;
  add_subplot : N → N → nat → py MPLPlot axes_handle
}.

(** Ints: matplotlib is taken to accept the position and to hand out the
    axes. *)
#[global] Instance int_grid : GridNumber nat := {|
  too_many_axes naxes nrows ncols := nrows * ncols <? naxes;
  add_subplot nrows ncols i :=
    mpl (AddSubplot nrows ncols i) ;; mret (Subplot nrows ncols i)
|}.

(** Floats: the product is a double and [naxes] is compared with it as a
    double.  matplotlib builds a [GridSpec] from [nrows] and [ncols], which
    raises [ValueError] (the number of rows must be a positive integer)
    unless they are instances of [numbers.Integral]; a float is not, whatever
    its value, so no axes are added. *)
#[global] Instance float_grid : GridNumber spec_float := {|
  too_many_axes naxes nrows ncols :=
    SFltb (SFmul prec64 emax64 nrows ncols) (float_of_int (Z.of_nat naxes));
  add_subplot nrows ncols i := py_raise ValueError
|}.

(** [MPLPlot.clearFig(nrows, ncols, naxes)].  The [kw] dict with [sharex] and
    [sharey] is built in the loop but never passed on, so it leaves no trace
    here. *)
Definition clearFig {N} {G : GridNumber N} (nrows ncols : N) (naxes : nat)
    : py MPLPlot (list axes_handle) :=
  fig_clear ;;
  setMplDefaults ;;
  set_self_axes [] ;;
  (if too_many_axes naxes nrows ncols then py_raise ValueError else mret ()) ;;
  py_for (seq 1 naxes) (λ i,
    ax ← add_subplot nrows ncols i;
    append_self_axes ax) ;;
  autosize ;;
  mpl Draw ;;
  p ← py_get;
  mret (self_axes p).

(** [MPLPlot.__init__]: a fresh figure, then [self.clearFig(nrows, ncols)]
    with [naxes] left at its default of 1. *)
Definition MPLPlot_init (nrows ncols : nat) : outcome () * MPLPlot :=
  (clearFig nrows ncols 1 ;; mret ()) {| fig_calls := []; self_axes := [] |}.

(** [for x in xs: acc = body acc x], for a loop that carries local
    variables from one round to the next. *)
Fixpoint py_fold {S A B} (xs : list A) (acc : B) (body : B → A → py S B) : py S B :=
  match xs with
  | [] => mret acc
  | x :: xs' => acc' ← body acc x; py_fold xs' acc' body
  end.

(** ** Datasets

    The dataset container ([DataDict] and its subclass [MeshgridDataDict])
    is defined upstream.  Only what this module asks of it is kept: its
    class, the answers of [data.axes()] and [data.dependents()], the value
    array of each field ([data[name]['values']]), and [data.label(name)]. *)

Inductive dd_class : Set := DataDict | MeshgridDataDict.

Record dataset : Type := Dataset {
  dd_class_of : dd_class;
  dd_axes : list string;
  dd_dependents : list string;
  dd_values : gmap string ndarray;
  dd_label : string → string
}.

(** [isinstance(data, MeshgridDataDict)] *)
Definition is_meshgrid (data : dataset) : bool :=
  match dd_class_of data with
  | MeshgridDataDict => true
  | DataDict => false
  end.

(** [data.shapes()]: the shape of every field's value array. *)
Definition dd_shapes (data : dataset) : gmap string (list nat) :=
  arr_shape <$> dd_values data.

(** ** What is defined outside this file

    [num.is_invalid], [interp_meshgrid_2d], [num.crop2d] and
    [centers2edges_2d] come from [plottr.utils.num], and
    [meshgrid_to_datadict] from [plottr.data.datadict].  [centers2edges_2d]
    is called under a bare [try/except]: [None] stands for any exception it
    raises. *)
Class Externals : Type := {
  is_invalid : ndarray → list bool;
  interp_meshgrid_2d : ndarray → ndarray → ndarray * ndarray;
  crop2d : ndarray → ndarray → ndarray → ndarray * ndarray * ndarray;
  centers2edges_2d : ndarray → option ndarray;
  meshgrid_to_datadict : dataset → dataset
}.

(** The outcome of the loop [for g in x, y, z] of
    [ppcolormesh_from_meshgrid] (lines 73-80): leave with [None], leave with
    a scatter plot, or fall through to the mesh. *)
Inductive grid_check : Set := GridReturn | GridScatter | GridPass.

Definition tuple_min (t : list nat) : option nat :=
  match t with
  | [] => None
  | n :: t' => Some (foldr Nat.min n t')
  end.

Fixpoint check_grids (gs : list ndarray) : grid_check :=
  match gs with
  | [] => GridPass
  | g :: gs' =>
      if arr_size g =? 0 then GridReturn
      else if length (arr_shape g) <? 2 then GridReturn
      else if default 0 (tuple_min (arr_shape g)) <? 2 then GridScatter
      else check_grids gs'
  end.

Section WithExternals.
Context `{Externals}.

(** Lines 73-91 of [ppcolormesh_from_meshgrid]: the arrays are final, the
    plot is drawn.  [pcolormesh(x, y, z, cmap=cmap, **kw)] is a
    [TypeError] when [kw] itself holds [cmap], for the keyword is then
    given twice. *)
Definition draw_grids (ax : axes_handle) (x y z : ndarray)
    (kw : gmap string string) : py MPLPlot (option mappable) :=
  let cmap := default "viridis" (kw !! "cmap") in
  match check_grids [x; y; z] with
  | GridReturn => mret None
  | GridScatter => mpl (AxScatter ax x y z) ;; mret (Some PathCollection)
  | GridPass =>
      match centers2edges_2d x with
      | None => mret None
      | Some xe =>
          match centers2edges_2d y with
          | None => mret None
          | Some ye =>
              (if decide (is_Some (kw !! "cmap"))
               then py_raise TypeError else mret ()) ;;
              mpl (AxPcolormesh ax xe ye z cmap) ;;
              mpl (AxSetXlimMinMax ax xe) ;;
              mpl (AxSetYlimMinMax ax ye) ;;
              mret (Some QuadMesh)
          end
      end
  end.

(** Lines 57-62: masked entries become NaN. *)
Definition fill_masked (a : ndarray) : ndarray :=
  if is_masked a then filled a PrimFloat.nan else a.

(** Lines 67-68. *)
Definition interp_if_nan (x y : ndarray) : ndarray * ndarray :=
  if np_any (np_isnan x) || np_any (np_isnan y)
  then interp_meshgrid_2d x y else (x, y).

(** Lines 70-71. *)
Definition crop_if_invalid (x y z : ndarray) : ndarray * ndarray * ndarray :=
  if np_any (is_invalid x) || np_any (is_invalid y)
  then crop2d x y z else (x, y, z).

Definition ppcolormesh_from_meshgrid (ax : axes_handle) (x y z : ndarray)
    (kw : gmap string string) : py MPLPlot (option mappable) :=
  let x := fill_masked x in
  let y := fill_masked y in
  let z := fill_masked z in
  if np_all (is_invalid x) || np_all (is_invalid y) then mret None
  else
    let '(x, y) := interp_if_nan x y in
    let '(x, y, z) := crop_if_invalid x y z in
    draw_grids ax x y z kw.

(** ** AutoPlot *)

Definition MAXYLABELS : nat := 3.

(** [s[:-2]] *)
Definition drop_last2 (s : string) : string :=
  String.substring 0 (String.length s - 2) s.

Definition _plot1d (data : dataset) (ax : axes_handle) (axName : string)
    (dNames : list string) : py MPLPlot () :=
  let fmt := if is_meshgrid data then "o-" else "o" in
  '(ylabel, _) ← py_fold dNames ("", 0) (λ '(ylabel, nylabels) n,
      x ← py_getitem (dd_values data) axName;
      y ← py_getitem (dd_values data) n;
      mpl (AxPlot ax x y fmt n) ;;
      if nylabels <? MAXYLABELS
      then mret (ylabel +:+ dd_label data n +:+ "; ", S nylabels)
      else mret (ylabel, nylabels));
  let ylabel := drop_last2 ylabel in
  let ylabel := if MAXYLABELS <? length dNames
                then ylabel +:+ "; [...]" else ylabel in
  mpl (AxSetYlabel ax ylabel) ;;
  mpl (AxSetXlabel ax (dd_label data axName)) ;;
  mpl (AxLegend ax) ;;
  autosize.

(** Lines 215-222 of [_plot2d]: the colorbar and the labels. *)
Definition decorate2d (data : dataset) (ax : axes_handle)
    (xName yName dName : string) (im : mappable) : py MPLPlot () :=
  mpl (Colorbar ax im) ;;
  mpl (AxSetTitle ax dName) ;;
  mpl (AxSetYlabel ax (dd_label data yName)) ;;
  mpl (AxSetXlabel ax (dd_label data xName)) ;;
  mpl (CaxSetYlabel ax (dd_label data dName)).

Definition _plot2d (data : dataset) (ax : axes_handle)
    (xName yName dName : string) : py MPLPlot () :=
  x ← py_getitem (dd_values data) xName;
  y ← py_getitem (dd_values data) yName;
  z ← py_getitem (dd_values data) dName;
  im ← (if is_meshgrid data
        then ppcolormesh_from_meshgrid ax x y z ∅
        else mpl (AxScatter ax x y z) ;; mret (Some PathCollection));
  match im with
  | None => mret ()
  | Some im => decorate2d data ax xName yName dName im
  end.

(** Lines 234-236 of [setData]: a grid over two axes with fewer than two
    points along some dimension is turned into a plain [DataDict]. *)
Definition flatten_thin_grid (data : dataset) (axesNames : list string)
    (shape : list nat) : py MPLPlot dataset :=
  if (length axesNames =? 2) && is_meshgrid data
  then m ← py_min shape;
       if m <? 2 then mret (meshgrid_to_datadict data)
       else mret data
  else mret data.

(** Lines 250-252 of [setData]: the loop over [enumerate(dataNames)]. *)
Definition plot_dependents (data : dataset) (axes : list axes_handle)
    (axesNames dataNames : list string) : py MPLPlot () :=
  py_for (imap pair dataNames) (λ '(i, dn),
    ax ← py_index axes i;
    xName ← py_index axesNames 0;
    yName ← py_index axesNames 1;
    _plot2d data ax xName yName dn).

(** In the two-axes branch [nrows = ndata ** .5 // 1] is a Python float and
    [ncols = np.ceil(ndata / nrows)] a numpy float64; [clearFig] gets them as
    they are. *)
Definition setData (data : option dataset) : py MPLPlot () :=
  match data with
  | None => mret ()
  | Some data =>
      let axesNames := dd_axes data in
      let dataNames := dd_dependents data in
      shape ← (let shapes := dd_shapes data in
               first ← py_index dataNames 0;
               py_getitem shapes first);
      if decide (0 ∈ shape) then mret ()
      else
        data ← flatten_thin_grid data axesNames shape;
        let naxes := length axesNames in
        let ndata := length dataNames in
        (if (naxes =? 0) || (ndata =? 0) then
           clearFig 1 1 0 ;; mret ()
         else if naxes =? 1 then
           axs ← clearFig 1 1 1;
           ax ← py_index axs 0;
           axName ← py_index axesNames 0;
           _plot1d data ax axName dataNames
         else if naxes =? 2 then
           let nrows := py_floordiv_1 (py_pow_half (float_of_int (Z.of_nat ndata))) in
           quot ← py_truediv (Z.of_nat ndata) nrows;
           let ncols := np_ceil quot in
           axes ← clearFig nrows ncols ndata;
           plot_dependents data axes axesNames dataNames
         else
           py_raise ValueError) ;;
        autosize ;;
        mpl Draw
  end.
End WithExternals.

(** [AutoPlot] defines no [__init__] and its [setData] touches nothing but
    [self.plot], so the canvas is the whole state of [setData] above. *)

(** ** PlotNode *)

(** [PlotNode.process], called with the keyword arguments [kw].  The state
    is the list of objects emitted on the [newPlotData] signal so far;
    delivering them to the connected slot is Qt's business. *)
Definition process {V} (kw : gmap string V) : py (list V) (gmap string V) :=
  data ← py_getitem kw "dataIn";
  py_modify (λ emitted, emitted ++ [data]) ;;
  mret {[ "dataOut" := data ]}.

(** ** MPLPlotWidget

    What the module contributes to the widget is its construction: which
    objects [__init__] creates and how it lays them out.  How the canvas
    reacts to the mouse, and which controls the toolbar offers, is the
    behaviour of the Qt and matplotlib classes named here. *)

Inductive qt_class : Set :=
  | QWidget
  | FigureCanvasQTAgg
  | NavigationToolbar2QT
  | MPLPlot_class
  | MPLPlotWidget_class
  | AutoPlot_class.

#[global] Instance qt_class_eq_dec : EqDecision qt_class.
Proof. solve_decision. Defined.

(** The base class named in each [class] statement of the module
    ([FCanvas] and [NavBar] are the import aliases of the two matplotlib
    classes, both Qt widgets). *)
Definition base_class (c : qt_class) : option qt_class :=
  match c with
  | QWidget => None
  | FigureCanvasQTAgg => Some QWidget
  | NavigationToolbar2QT => Some QWidget
  | MPLPlot_class => Some FigureCanvasQTAgg
  | MPLPlotWidget_class => Some QWidget
  | AutoPlot_class => Some MPLPlotWidget_class
  end.

Fixpoint subclass_upto (fuel : nat) (c d : qt_class) : bool :=
  if decide (c = d) then true
  else match fuel, base_class c with
       | S fuel', Some b => subclass_upto fuel' b d
       | _, _ => false
       end.

(** [issubclass(c, d)]; no chain of bases in the module is longer than 3. *)
Definition issubclass (c d : qt_class) : bool := subclass_upto 3 c d.

(** The objects a widget's [__init__] refers to. *)
Inductive widget_ref : Set := Self | SelfPlot.

(** A widget handed to [layout.addWidget]: its class and the arguments it
    was built from ([NavBar(canvas, parent)]). *)
Inductive layout_item : Set :=
  | ItemExisting (w : widget_ref) (cls : qt_class)
  | ItemNew (cls : qt_class) (canvas parent : widget_ref).

Inductive layout_class : Set := QVBoxLayout | QHBoxLayout.

Inductive direction : Set := TopToBottom | LeftToRight.

Definition layout_direction (l : layout_class) : direction :=
  match l with
  | QVBoxLayout => TopToBottom
  | QHBoxLayout => LeftToRight
  end.

Record qt_layout : Set := Layout {
  lay_class : layout_class;
  lay_owner : widget_ref;
  lay_items : list layout_item
}.

Definition addWidget (w : layout_item) (l : qt_layout) : qt_layout :=
  {| lay_class := lay_class l; lay_owner := lay_owner l;
     lay_items := lay_items l ++ [w] |}.

Record MPLPlotWidget : Type := Widget {
  self_class : qt_class;
  self_plot : MPLPlot;
  self_layout : qt_layout
}.

(** [MPLPlotWidget.__init__], run for an instance of class [cls]:
    [self.plot = MPLPlot()] with the default 1 x 1 grid, then the layout. *)
Definition MPLPlotWidget_init (cls : qt_class) : outcome MPLPlotWidget :=
  match setMplDefaults (), MPLPlot_init 1 1 with
  | (Ok (), ()), (Ok (), plot) =>
      let layout := Layout QVBoxLayout Self [] in
      let layout := addWidget (ItemExisting SelfPlot MPLPlot_class) layout in
      let layout := addWidget (ItemNew NavigationToolbar2QT SelfPlot Self) layout in
      Ok {| self_class := cls; self_plot := plot; self_layout := layout |}
  | (Raise e, _), _ | _, (Raise e, _) => Raise e
  end.

(** [MPLPlotWidget.setData]; [AutoPlot] overrides it with [setData] above. *)
Definition MPLPlotWidget_setData (data : option dataset) : py MPLPlot () :=
  py_raise NotImplementedError.

(** Instantiating a class of the module that is a widget: [AutoPlot] has no
    [__init__] of its own and inherits the one above. *)
Definition instantiate (cls : qt_class) : option (outcome MPLPlotWidget) :=
  if issubclass cls MPLPlotWidget_class then Some (MPLPlotWidget_init cls) else None.

(** ** The remaining functions of the module *)

(** [np.meshgrid(x, y)] with the default [indexing='xy']: two arrays of
    shape [(len(y), len(x))], the first repeating [x] along the rows, the
    second repeating each entry of [y] along its row. *)
Definition np_meshgrid (x y : ndarray) : ndarray * ndarray :=
  let nx := length (arr_cells x) in
  let ny := length (arr_cells y) in
  (NdArray [ny; nx] (mjoin (replicate ny (arr_cells x))) None,
   NdArray [ny; nx] (arr_cells y ≫= replicate nx) None).

(** [pcolorgrid(xaxis, yaxis)]; [centers2edges_1d] comes from
    [plottr.utils.num]. *)
Definition pcolorgrid (centers2edges_1d : ndarray → ndarray)
    (xaxis yaxis : ndarray) : ndarray * ndarray :=
  let xedges := centers2edges_1d xaxis in
  let yedges := centers2edges_1d yaxis in
  np_meshgrid xedges yedges.

(** ** Sample data

    Small concrete arrays and datasets on which the definitions above are
    run, and stand-ins for the external helpers: [no_interp] fills no gap,
    [crop_last_row] cuts the last row of a two-dimensional grid, the edges
    of a grid are the grid itself, and [flatten_dataset] turns every value
    array of a dataset into a one-dimensional one. *)
Module Sample.
Definition vec (cells : list float) : ndarray :=
  NdArray [length cells] cells None.

Definition grid (nrows ncols : nat) (cells : list float) : ndarray :=
  NdArray [nrows; ncols] cells None.

Definition no_interp (x y : ndarray) : ndarray * ndarray := (x, y).

Definition drop_last_row (a : ndarray) : ndarray :=
  match arr_shape a with
  | [r; c] => NdArray [r - 1; c] (take ((r - 1) * c) (arr_cells a)) None
  | _ => a
  end.

Definition crop_last_row (x y z : ndarray) : ndarray * ndarray * ndarray :=
  (drop_last_row x, drop_last_row y, drop_last_row z).

Definition flatten (a : ndarray) : ndarray :=
  NdArray [arr_size a] (arr_cells a) (arr_mask a).

Definition flatten_dataset (d : dataset) : dataset :=
  {| dd_class_of := DataDict;
     dd_axes := dd_axes d;
     dd_dependents := dd_dependents d;
     dd_values := flatten <$> dd_values d;
     dd_label := dd_label d |}.

#[export] Instance stand_ins : Externals := {|
  is_invalid := np_isnan;
  interp_meshgrid_2d := no_interp;
  crop2d := crop_last_row;
  centers2edges_2d := Some;
  meshgrid_to_datadict := flatten_dataset
|}.

Definition blank : MPLPlot := Canvas [] [].

Definition xs3 : ndarray := vec [1; 2; 3]%float.
Definition ys3 : ndarray := vec [10; 20; 30]%float.
Definition zs3 : ndarray := vec [5; 6; 7]%float.

(** One axis, two dependents. *)
Definition line_data (c : dd_class) : dataset :=
  Dataset c ["x"] ["y1"; "y2"]
    {[ "x" := xs3; "y1" := ys3; "y2" := zs3 ]} id.

(** Two axes, one dependent, scattered points. *)
Definition scatter_data : dataset :=
  Dataset DataDict ["x"; "y"] ["z"]
    {[ "x" := xs3; "y" := ys3; "z" := zs3 ]} id.

(** Two axes, one dependent, on a grid of [nrows] x 2 points. *)
Definition gx (nrows : nat) : ndarray :=
  grid nrows 2 (take (nrows * 2) [0; 0; 1; 1; 2; 2]%float).
Definition gy (nrows : nat) : ndarray :=
  grid nrows 2 (take (nrows * 2) [0; 1; 0; 1; 0; 1]%float).
Definition gz (nrows : nat) : ndarray :=
  grid nrows 2 (take (nrows * 2) [4; 5; 6; 7; 8; 9]%float).

Definition mesh_data (nrows : nat) : dataset :=
  Dataset MeshgridDataDict ["x"; "y"] ["z"]
    {[ "x" := gx nrows; "y" := gy nrows; "z" := gz nrows ]} id.

(** A 3 x 2 grid whose last row of coordinates was never measured. *)
Definition gx_gap : ndarray := grid 3 2 [0; 0; 1; 1; nan; nan]%float.
Definition gy_gap : ndarray := grid 3 2 [0; 1; 0; 1; nan; nan]%float.

(** Three axes, one dependent with [npoints] points. *)
Definition cube_data (npoints : nat) : dataset :=
  let a := vec (take npoints [1; 2; 3]%float) in
  Dataset DataDict ["x"; "y"; "z"] ["d"]
    {[ "x" := a; "y" := a; "z" := a; "d" := a ]} id.

(** A dataset without any field. *)
Definition no_fields : dataset := Dataset DataDict [] [] ∅ id.

(** Two axes and the dependents [names], scattered points. *)
Definition scatter_many (names : list string) : dataset :=
  Dataset DataDict ["x"; "y"] names
    (foldr (λ n, <[n := zs3]>) {[ "x" := xs3; "y" := ys3 ]} names) id.
(** One axis, two dependents, the values of the second one missing. *)
Definition line_data_incomplete : dataset :=
  Dataset DataDict ["x"] ["y1"; "y2"] {[ "x" := xs3; "y1" := ys3 ]} id.

(** One axis, five dependents. *)
Definition line_data_five : dataset :=
  Dataset DataDict ["x"] ["a"; "b"; "c"; "d"; "e"]
    (foldr (λ n, <[n := zs3]>) {[ "x" := xs3 ]} ["a"; "b"; "c"; "d"; "e"]) id.

(** A single number, no independent axis. *)
Definition scalar_data : dataset :=
  Dataset DataDict [] ["s"] {[ "s" := NdArray [] [1%float] None ]} id.

(** A 2 x 2 grid whose [x] coordinates were never measured. *)
Definition gx_nan : ndarray := grid 2 2 [nan; nan; nan; nan]%float.

Definition mesh_data_nan : dataset :=
  Dataset MeshgridDataDict ["x"; "y"] ["z"]
    {[ "x" := gx_nan; "y" := gy 2; "z" := gz 2 ]} id.

(** A masked array: the second of its three entries is masked. *)
Definition masked3 : ndarray :=
  NdArray [3] [1; 2; 3]%float (Some [false; true; false]).






(** Edges of a one-dimensional axis, for the sake of an example: the
    centers, and the last one once more. *)
Definition edges_1d (a : ndarray) : ndarray :=
  vec (arr_cells a ++ match last (arr_cells a) with Some c => [c] | None => [] end).
End Sample.

(** ** Notions used in the statements *)

(** The canvas [p] after the calls [cs] have been made on its figure. *)
Definition add_calls (p : MPLPlot) (cs : list mpl_call) : MPLPlot :=
  {| fig_calls := fig_calls p ++ cs; self_axes := self_axes p |}.

(** The axes of a grid with [n] subplots, numbered from [a], and the calls
    that create them. *)
Definition grid_axes (nrows ncols a n : nat) : list axes_handle :=
  map (Subplot nrows ncols) (seq a n).

Definition grid_calls (nrows ncols a n : nat) : list mpl_call :=
  map (AddSubplot nrows ncols) (seq a n).

(** The calls by which the arrays [x], [y], [z] can reach the axes [ax]:
    nothing is drawn, or they are scattered as they are, or a mesh is drawn
    over the edges computed from [x] and [y]. *)
Inductive drawn_from `{Externals} (ax : axes_handle) (x y z : ndarray)
    (cmap : string) : list mpl_call → Prop :=
  | drawn_nothing : drawn_from ax x y z cmap []
  | drawn_scatter : drawn_from ax x y z cmap [AxScatter ax x y z]
  | drawn_mesh xe ye :
      centers2edges_2d x = Some xe →
      centers2edges_2d y = Some ye →
      drawn_from ax x y z cmap
        [AxPcolormesh ax xe ye z cmap; AxSetXlimMinMax ax xe; AxSetYlimMinMax ax ye].

(** The value array of the field [n] of [d] (an empty array stands for a
    field that [d] does not have), and the datasets that have all the fields
    in [names]. *)
Definition field (d : dataset) (n : string) : ndarray :=
  default (NdArray [] [] None) (dd_values d !! n).

Definition has_fields (d : dataset) (names : list string) : Prop :=
  Forall (λ n, is_Some (dd_values d !! n)) names.

(** One [ax.plot] of every dependent against the axis [a]. *)
Definition line_plots (d : dataset) (ax : axes_handle) (a fmt : string) : list mpl_call :=
  map (λ n, AxPlot ax (field d a) (field d n) fmt n) (dd_dependents d).







(** The figure of the one-axis branch. *)
Definition one_axis_figure (d : dataset) (a fmt ylabel : string) : MPLPlot :=
  let ax := Subplot 1 1 1 in
  {| fig_calls :=
       [AddSubplot 1 1 1; SubplotsAdjust; Draw]
       ++ line_plots d ax a fmt
       ++ [AxSetYlabel ax ylabel; AxSetXlabel ax (dd_label d a); AxLegend ax;
           SubplotsAdjust]
       ++ [SubplotsAdjust; Draw];
     self_axes := [ax] |}.



(** The y label of the one-axis plot: the labels of the first [MAXYLABELS]
    dependents joined with ["; "], and a mark when there are more. *)
Definition plot1d_ylabel (d : dataset) (dNames : list string) : string :=
  String.concat "; " (map (dd_label d) (take MAXYLABELS dNames))
  +:+ (if MAXYLABELS <? length dNames then "; [...]" else "").

(** The labels of [_plot1d] as the loop accumulates them, each followed by
    its separator. *)
Fixpoint labels_with_sep (labels : list string) : string :=
  match labels with
  | [] => ""
  | l :: labels' => l +:+ "; " +:+ labels_with_sep labels'
  end.

(** An array that is a grid: at least two dimensions, at least two points
    along each. *)
Definition is_grid (g : ndarray) : Prop :=
  2 ≤ length (arr_shape g) ∧ Forall (λ n, 2 ≤ n) (arr_shape g).


(** A double that is at least 1: finite and positive with its leading bit
    at a non-negative power of two, or plus infinity. *)
Definition at_least_one (x : spec_float) : Prop :=
  match x with
  | S754_finite false m e => (0 ≤ Z.log2 (Zpos m) + e)%Z
  | S754_infinity false => True
  | _ => False
  end.

(** * Properties *)

(** Side conditions on the sample data: every named field is there, and no
    dimension of a shape is zero. *)
Ltac sample_fields :=
  repeat (apply Forall_cons; split; [eexists; reflexivity|]); apply Forall_nil_2.

Ltac sample_no_zero :=
  repeat (apply not_elem_of_cons; split; [lia|]); apply not_elem_of_nil.

(** ** Running the monad *)

Lemma bind_ok {S A B} (m : py S A) (k : A → py S B) s a s' :
  m s = (Ok a, s') → (m ≫= k) s = k a s'.
Proof. intros Hm. unfold mbind, py_mbind, py_bind. by rewrite Hm. Qed.

Lemma bind_raise {S A B} (m : py S A) (k : A → py S B) s e s' :
  m s = (Raise e, s') → (m ≫= k) s = (Raise e, s').
Proof. intros Hm. unfold mbind, py_mbind, py_bind. by rewrite Hm. Qed.

Lemma add_calls_nil p : add_calls p [] = p.
Proof. destruct p. unfold add_calls. simpl. by rewrite app_nil_r. Qed.

Lemma add_calls_app p cs cs' :
  add_calls (add_calls p cs) cs' = add_calls p (cs ++ cs').
Proof. unfold add_calls. simpl. by rewrite app_assoc. Qed.

Lemma mpl_run c p : mpl c p = (Ok (), add_calls p [c]).
Proof. reflexivity. Qed.

Lemma py_index_ok {S A} (xs : list A) i x (s : S) :
  xs !! i = Some x → py_index xs i s = (Ok x, s).
Proof. intros Hx. unfold py_index. by rewrite Hx. Qed.

Lemma py_getitem_ok {S A} (d : gmap string A) k x (s : S) :
  d !! k = Some x → py_getitem d k s = (Ok x, s).
Proof. intros Hx. unfold py_getitem. by rewrite Hx. Qed.

(** ** Python floats: the number of rows is never zero *)

Section FloatFacts.
Local Open Scope Z_scope.

(** The number of binary digits of a mantissa, in terms of [Z.log2]. *)
Lemma digits2_pos_size p : digits2_pos p = Pos.size p.
Proof. induction p as [p IH|p IH|]; simpl; by rewrite ?IH. Qed.

Lemma Zdigits2_log2 (m : Z) : 0 < m → Zdigits2 m = Z.log2 m + 1.
Proof.
  destruct m as [|p|p]; [lia| |lia]. intros _. simpl.
  rewrite digits2_pos_size. destruct p as [p|p|]; simpl; lia.
Qed.

(** Shifting a mantissa right divides it by a power of two. *)
Lemma shr_1_m r : 0 ≤ shr_m r → shr_m (shr_1 r) = shr_m r / 2.
Proof.
  destruct r as [m b s]. simpl. intros Hm.
  destruct m as [|[p|p|]|p]; try lia; simpl; rewrite <- Z.div2_div; reflexivity.
Qed.

Lemma iter_shr_1_m p : ∀ r, 0 ≤ shr_m r →
  shr_m (SpecFloat.iter_pos shr_1 p r) = shr_m r / 2 ^ Zpos p.
Proof.
  induction p as [p IH|p IH|]; intros r Hr; simpl SpecFloat.iter_pos.
  - assert (0 ≤ shr_m (shr_1 r)) as H1.
    { rewrite shr_1_m by done. apply Z.div_pos; lia. }
    assert (0 ≤ shr_m (SpecFloat.iter_pos shr_1 p (shr_1 r))) as H2.
    { rewrite IH by done. apply Z.div_pos; lia. }
    rewrite IH, IH, shr_1_m by done.
    rewrite !Z.div_div by lia. f_equal.
    replace (Z.pos p~1) with (Z.pos p + Z.pos p + 1) by lia.
    rewrite !Z.pow_add_r, Z.pow_1_r by lia. lia.
  - assert (0 ≤ shr_m (SpecFloat.iter_pos shr_1 p r)) as H2.
    { rewrite IH by done. apply Z.div_pos; lia. }
    rewrite IH, IH by done. rewrite Z.div_div by lia. f_equal.
    replace (Z.pos p~0) with (Z.pos p + Z.pos p) by lia.
    rewrite Z.pow_add_r by lia. lia.
  - rewrite shr_1_m by done. done.
Qed.

Lemma shr_record_of_loc_m m l : shr_m (shr_record_of_loc m l) = m.
Proof. destruct l as [|[]]; reflexivity. Qed.

(** Bringing a positive mantissa to the precision of the format keeps the
    position of its leading bit. *)
Lemma shr_fexp_magnitude m e l :
  0 < m → 0 ≤ Z.log2 m + e →
  0 < shr_m (shr_fexp prec64 emax64 m e l).1 ∧
  Z.log2 (shr_m (shr_fexp prec64 emax64 m e l).1)
    + (shr_fexp prec64 emax64 m e l).2 = Z.log2 m + e.
Proof.
  intros Hm He. unfold shr_fexp, shr.
  rewrite Zdigits2_log2 by done.
  assert (fexp prec64 emax64 (Z.log2 m + 1 + e) - e = Z.log2 m - 52) as ->.
  { unfold fexp, emin, prec64, emax64. lia. }
  pose proof (Z.log2_spec m Hm) as [Hlo _].
  destruct (Z.log2 m - 52) as [|p|p] eqn:Hn; simpl;
    rewrite ?shr_record_of_loc_m; try (split; [done|lia]).
  rewrite iter_shr_1_m by (rewrite shr_record_of_loc_m; lia).
  rewrite shr_record_of_loc_m.
  assert (2 ^ Z.pos p ≤ m) as Hp.
  { etrans; [|exact Hlo]. apply Z.pow_le_mono_r; lia. }
  split.
  - apply Z.div_str_pos. split; [apply Z.pow_pos_nonneg; lia|done].
  - rewrite <- Z.shiftr_div_pow2 by lia. rewrite Z.log2_shiftr by done. lia.
Qed.

(** Rounding to nearest never takes a number that is at least 1 below 1. *)
Lemma binary_round_aux_at_least_one m e l :
  0 < m → 0 ≤ Z.log2 m + e →
  at_least_one (binary_round_aux prec64 emax64 false m e l).
Proof.
  intros Hm He. unfold binary_round_aux.
  pose proof (shr_fexp_magnitude m e l Hm He) as [Hpos Hlog].
  destruct (shr_fexp prec64 emax64 m e l) as [mrs' e']. simpl in Hpos, Hlog.
  set (m1 := round_nearest_even (shr_m mrs') (loc_of_shr_record mrs')).
  assert (shr_m mrs' ≤ m1) as Hle.
  { unfold m1, round_nearest_even.
    destruct (loc_of_shr_record mrs') as [|[]]; try destruct (Z.even _); lia. }
  pose proof (Z.log2_le_mono _ _ Hle) as Hmono.
  assert (0 < m1) as Hm1 by lia.
  assert (0 ≤ Z.log2 m1 + e') as He1 by lia.
  pose proof (shr_fexp_magnitude m1 e' loc_Exact Hm1 He1) as [Hpos' Hlog'].
  destruct (shr_fexp prec64 emax64 m1 e' loc_Exact) as [mrs'' e''].
  simpl in Hpos', Hlog'.
  destruct (shr_m mrs'') as [|p|p]; [lia| |lia].
  destruct (e'' <=? emax64 - prec64); cbn [at_least_one]; [lia|done].
Qed.

Lemma pos_iter_xO d : ∀ m, Zpos (Pos.iter xO m d) = Zpos m * 2 ^ Zpos d.
Proof.
  induction d as [|d IH] using Pos.peano_ind; intros m.
  - simpl. lia.
  - rewrite Pos.iter_succ, Pos2Z.inj_xO, IH, Pos2Z.inj_succ, Z.pow_succ_r; lia.
Qed.

Lemma binary_round_at_least_one m e :
  0 ≤ Z.log2 (Zpos m) + e →
  at_least_one (binary_round prec64 emax64 false m e).
Proof.
  intros He. unfold binary_round, shl_align.
  destruct (fexp prec64 emax64 (Z.pos (digits2_pos m) + e) - e)
    as [|d|d] eqn:Hd; apply binary_round_aux_at_least_one; try lia.
  rewrite pos_iter_xO, Z.log2_mul_pow2 by lia. lia.
Qed.

Lemma float_of_int_at_least_one z :
  1 ≤ z → at_least_one (float_of_int z).
Proof.
  intros Hz. destruct z as [|p|p]; try lia.
  apply binary_round_at_least_one. pose proof (Z.log2_nonneg (Zpos p)). lia.
Qed.

(** The square root of a double that is at least 1 is at least 1. *)
Lemma py_pow_half_at_least_one x :
  at_least_one x → at_least_one (py_pow_half x).
Proof.
  unfold py_pow_half.
  destruct x as [[]|[]| |[] m e]; cbn [at_least_one SFsqrt]; try done.
  intros He. unfold SFsqrt_core_binary.
  set (e' := Z.min _ _). set (s := e - 2 * e').
  assert (0 ≤ s) as Hs.
  { unfold s, e'. rewrite Z.div2_div.
    pose proof (Z.mul_div_le e 2 ltac:(lia)). lia. }
  set (m' := match s with Z0 => _ | Zpos _ => _ | Zneg _ => _ end).
  assert (m' = Zpos m * 2 ^ s) as Hm'.
  { unfold m'. clearbody s. destruct s as [|p|p]; try lia.
    by rewrite Z.shiftl_mul_pow2. }
  pose proof (Z.sqrtrem_sqrt m') as Hq.
  destruct (Z.sqrtrem m') as [q r]. simpl in Hq. subst q.
  pose proof (Z.log2_spec (Zpos m) ltac:(lia)) as [Hlo _].
  assert (0 < m') as Hpos.
  { rewrite Hm'. apply Z.mul_pos_pos; [lia|]. apply Z.pow_pos_nonneg; lia. }
  apply binary_round_aux_at_least_one.
  - by apply Z.sqrt_pos.
  - destruct (decide (0 ≤ e')) as [?|Hneg].
    { pose proof (Z.log2_nonneg (Z.sqrt m')). lia. }
    assert (- e' ≤ Z.log2 (Z.sqrt m')); [|lia].
    apply Z.log2_le_pow2; [by apply Z.sqrt_pos|].
    apply Z.sqrt_le_square; [lia|apply Z.pow_nonneg; lia|].
    rewrite <- Z.pow_add_r, Hm' by lia.
    etrans; [|apply Z.mul_le_mono_nonneg_r; [apply Z.pow_nonneg; lia|exact Hlo]].
    rewrite <- Z.pow_add_r by (pose proof (Z.log2_nonneg (Zpos m)); lia).
    apply Z.pow_le_mono_r; lia.
Qed.

(** The floor of a double that is at least 1 is not zero. *)
Lemma py_floordiv_1_at_least_one x :
  at_least_one x → float_is_zero (py_floordiv_1 x) = false.
Proof.
  destruct x as [[]|[]| |[] m e];
    cbn [at_least_one py_floordiv_1 float_is_zero]; try done.
  intros He. destruct (0 <=? e) eqn:Hsign; [done|].
  apply Z.leb_gt in Hsign.
  pose proof (Z.log2_spec (Zpos m) ltac:(lia)) as [Hlo _].
  assert (0 < Z.shiftr (Zpos m) (- e)) as Hq.
  { rewrite Z.shiftr_div_pow2 by lia. apply Z.div_str_pos.
    split; [apply Z.pow_pos_nonneg; lia|].
    etrans; [|exact Hlo]. apply Z.pow_le_mono_r; lia. }
  destruct (Z.shiftr (Zpos m) (- e)) as [|q|q]; try lia.
  pose proof (binary_round_at_least_one q 0) as H.
  cbn [binary_normalize].
  destruct (binary_round prec64 emax64 false q 0) as [[]|[]| |[] ? ?];
    cbn [at_least_one float_is_zero] in *; try done.
  all: exfalso; apply H; pose proof (Z.log2_nonneg (Zpos q)); lia.
Qed.

(** [ndata ** .5 // 1] is not zero when there is a dependent, so that
    [ndata / nrows] does not raise [ZeroDivisionError]. *)
Lemma nrows_nonzero (ndata : nat) :
  (1 ≤ ndata)%nat →
  float_is_zero (py_floordiv_1 (py_pow_half (float_of_int (Z.of_nat ndata)))) = false.
Proof.
  intros Hn. apply py_floordiv_1_at_least_one, py_pow_half_at_least_one,
    float_of_int_at_least_one. lia.
Qed.
End FloatFacts.

(** ** clearFig *)

Lemma add_subplot_loop nrows ncols n : ∀ a cs axs,
  py_for (seq a n) (λ i, ax ← add_subplot nrows ncols i; append_self_axes ax)
    (Canvas cs axs)
  = (Ok (), Canvas (cs ++ grid_calls nrows ncols a n)
                   (axs ++ grid_axes nrows ncols a n)).
Proof.
  induction n as [|n IH]; intros a cs axs.
  - simpl. by rewrite !app_nil_r.
  - simpl. unfold mbind at 1, py_mbind, py_bind. simpl.
    rewrite IH. unfold grid_calls, grid_axes. simpl.
    by rewrite <- !app_assoc.
Qed.

Lemma clearFig_raise nrows ncols naxes p :
  nrows * ncols < naxes →
  clearFig nrows ncols naxes p = (Raise ValueError, Canvas [] []).
Proof.
  intros Hlt. unfold clearFig.
  unfold mbind, py_mbind, py_bind. simpl.
  apply Nat.ltb_lt in Hlt. by rewrite Hlt.
Qed.

Lemma clearFig_ok nrows ncols naxes p :
  naxes ≤ nrows * ncols →
  clearFig nrows ncols naxes p
  = (Ok (grid_axes nrows ncols 1 naxes),
     Canvas (grid_calls nrows ncols 1 naxes ++ [SubplotsAdjust; Draw])
            (grid_axes nrows ncols 1 naxes)).
Proof.
  intros Hle. unfold clearFig. cbn [too_many_axes add_subplot int_grid].
  assert ((nrows * ncols <? naxes) = false) as Hb by (apply Nat.ltb_ge; lia).
  rewrite Hb. do 4 (erewrite bind_ok by reflexivity).
  erewrite bind_ok by apply add_subplot_loop.
  do 3 (erewrite bind_ok by reflexivity).
  simpl. by rewrite <- app_assoc.
Qed.


Lemma grid_axes_lookup nrows ncols a n i :
  i < n → grid_axes nrows ncols a n !! i = Some (Subplot nrows ncols (a + i)).
Proof.
  intros Hi. unfold grid_axes.
  by rewrite list_lookup_fmap, lookup_seq_lt.
Qed.

(** Called with floats, [clearFig] never gets past the first
    [add_subplot]: it raises [ValueError] there, if not already at its own
    test, and leaves the figure cleared and [self.axes] empty. *)
Lemma clearFig_float_raise (nrows ncols : spec_float) (naxes : nat) (p : MPLPlot) :
  1 ≤ naxes →
  clearFig nrows ncols naxes p = (Raise ValueError, Canvas [] []).
Proof.
  intros Hn. unfold clearFig.
  do 3 (erewrite bind_ok by reflexivity).
  destruct (too_many_axes naxes nrows ncols).
  - by apply bind_raise.
  - erewrite bind_ok by reflexivity.
    apply bind_raise. destruct naxes as [|n]; [lia|].
    by apply bind_raise, bind_raise.
Qed.



(** ** setData: what is decided before anything is drawn *)

Section SetData.
Context `{Externals}.

Lemma first_shape_run (d : dataset) (n0 : string) (shape : list nat) (p : MPLPlot) :
  dd_dependents d !! 0 = Some n0 →
  dd_shapes d !! n0 = Some shape →
  (first ← py_index (dd_dependents d) 0; py_getitem (dd_shapes d) first) p
  = (Ok shape, p).
Proof.
  intros Hn0 Hshape.
  erewrite bind_ok by (by apply py_index_ok).
  by apply py_getitem_ok.
Qed.

(** C7. A dataset without dependents makes [setData] raise [IndexError] at
    [dataNames[0]]: the canvas is left as it was, and in particular the
    branch that clears the figure for [ndata == 0] is not reached. *)
Theorem setData_without_dependents_is_IndexError (d : dataset) (p : MPLPlot) :
  dd_dependents d = [] →
  setData (Some d) p = (Raise IndexError, p).
Proof.
  intros Hdeps. unfold setData.
  apply bind_raise. apply bind_raise.
  unfold py_index. by rewrite Hdeps.
Qed.

(** C2 (amended). A dataset with more than two independent axes, at least
    one dependent, and no zero in the shape of its first dependent is
    rejected with [ValueError]; nothing is drawn and the canvas is left as
    it was. *)
Theorem setData_more_than_two_axes_is_ValueError
    (d : dataset) (n0 : string) (shape : list nat) (p : MPLPlot) :
  2 < length (dd_axes d) →
  dd_dependents d !! 0 = Some n0 →
  dd_shapes d !! n0 = Some shape →
  0 ∉ shape →
  setData (Some d) p = (Raise ValueError, p).
Proof.
  intros Hax Hn0 Hshape Hnz. unfold setData, flatten_thin_grid.
  erewrite bind_ok by (by eapply first_shape_run).
  rewrite decide_False by done.
  assert (length (dd_dependents d) ≠ 0) as Hdeps.
  { destruct (dd_dependents d); [done | simpl; lia]. }
  destruct (length (dd_axes d)) as [|[|[|n]]] eqn:Hlen; try lia.
  destruct (length (dd_dependents d)) as [|m] eqn:Hm; [done|].
  simpl. erewrite bind_ok by reflexivity.
  apply bind_raise. reflexivity.
Qed.
End SetData.

Lemma setData_without_dependents_is_IndexError_witness :
  dd_dependents Sample.no_fields = []
  ∧ setData (H := Sample.stand_ins) (Some Sample.no_fields) Sample.blank
    = (Raise IndexError, Sample.blank).
Proof.
  split; [reflexivity|].
  apply (setData_without_dependents_is_IndexError (H := Sample.stand_ins)).
  reflexivity.
Defined.

Lemma setData_more_than_two_axes_is_ValueError_witness :
  setData (H := Sample.stand_ins) (Some (Sample.cube_data 3)) Sample.blank
  = (Raise ValueError, Sample.blank).
Proof.
  apply (setData_more_than_two_axes_is_ValueError (H := Sample.stand_ins)
           (Sample.cube_data 3) "d" [3]).
  - simpl. lia.
  - reflexivity.
  - reflexivity.
  - apply not_elem_of_cons. split; [lia | apply not_elem_of_nil].
Defined.

(** C2, as stated, fails: three independent axes, but the first dependent
    holds no point yet (shape [(0,)]); [setData] returns without raising and
    leaves the canvas as it was. *)
Lemma setData_three_axes_without_points_returns :
  length (dd_axes (Sample.cube_data 0)) = 3
  ∧ dd_shapes (Sample.cube_data 0) !! "d" = Some [0]
  ∧ setData (H := Sample.stand_ins) (Some (Sample.cube_data 0)) Sample.blank
    = (Ok (), Sample.blank).
Proof. split; [reflexivity|]. split; reflexivity. Qed.

(** ** PlotNode.process *)

(** C8. Whatever object is passed as [dataIn], [PlotNode.process] returns
    the dict [{'dataOut': data}] holding that very object, after emitting it
    once on [newPlotData]. *)
Theorem process_returns_dataIn_as_dataOut {V : Type}
    (kw : gmap string V) (data : V) (emitted : list V) :
  kw !! "dataIn" = Some data →
  ∃ out : gmap string V,
    process kw emitted = (Ok out, emitted ++ [data])
    ∧ out !! "dataOut" = Some data
    ∧ ∀ k, k ≠ "dataOut" → out !! k = None.
Proof.
  intros Hin. exists {[ "dataOut" := data ]}. split.
  - unfold process. erewrite bind_ok by (by apply py_getitem_ok).
    by erewrite bind_ok by reflexivity.
  - split; [apply lookup_singleton_eq|].
    intros k Hk. by apply lookup_singleton_ne.
Qed.

Lemma process_returns_dataIn_as_dataOut_witness :
  ∃ out : gmap string (option dataset),
    process {[ "dataIn" := Some Sample.scatter_data ]} []
    = (Ok out, [] ++ [Some Sample.scatter_data])
    ∧ out !! "dataOut" = Some (Some Sample.scatter_data)
    ∧ ∀ k, k ≠ "dataOut" → out !! k = None.
Proof.
  apply (process_returns_dataIn_as_dataOut
           {[ "dataIn" := Some Sample.scatter_data ]} (Some Sample.scatter_data) []).
  reflexivity.
Defined.

(** ** ppcolormesh_from_meshgrid *)

Section Ppcolormesh.
Context `{Externals}.

Lemma draw_grids_drawn ax x y z kw p :
  ∃ r cs, draw_grids ax x y z kw p = (r, add_calls p cs)
          ∧ drawn_from ax x y z (default "viridis" (kw !! "cmap")) cs.
Proof.
  unfold draw_grids. destruct (check_grids [x; y; z]).
  - exists (Ok None), []. rewrite add_calls_nil. split; [done | constructor].
  - eexists _, _. split; [reflexivity | constructor].
  - destruct (centers2edges_2d x) as [xe|] eqn:Hx;
      [destruct (centers2edges_2d y) as [ye|] eqn:Hy|].
    + destruct (decide (is_Some (kw !! "cmap"))).
      * exists (Raise TypeError), []. rewrite add_calls_nil.
        split; [done | constructor].
      * exists (Ok (Some QuadMesh)),
          [AxPcolormesh ax xe ye z (default "viridis" (kw !! "cmap"));
           AxSetXlimMinMax ax xe; AxSetYlimMinMax ax ye].
        split; [|by apply drawn_mesh].
        do 4 (erewrite bind_ok by reflexivity).
        unfold add_calls, mret, py_mret, py_ret. simpl.
        by rewrite <- !app_assoc.
    + exists (Ok None), []. rewrite add_calls_nil. split; [done | constructor].
    + exists (Ok None), []. rewrite add_calls_nil. split; [done | constructor].
Qed.

Lemma ppcolormesh_reaches_draw ax x y z kw xi yi xc yc zc :
  np_all (is_invalid (fill_masked x)) = false →
  np_all (is_invalid (fill_masked y)) = false →
  interp_if_nan (fill_masked x) (fill_masked y) = (xi, yi) →
  crop_if_invalid xi yi (fill_masked z) = (xc, yc, zc) →
  ppcolormesh_from_meshgrid ax x y z kw = draw_grids ax xc yc zc kw.
Proof.
  intros Hx Hy Hi Hc. unfold ppcolormesh_from_meshgrid.
  by rewrite Hx, Hy, Hi, Hc.
Qed.

(** C3. When the coordinate arrays, masked entries filled with NaN, hold
    a NaN somewhere and neither of them is invalid throughout, they go
    through [interp_meshgrid_2d], and whatever is drawn is drawn from its
    result (cropped where line 70 asks for it). *)
Theorem ppcolormesh_interpolates_before_drawing
    (ax : axes_handle) (x y z : ndarray) (kw : gmap string string)
    (xi yi : ndarray) (p : MPLPlot) :
  np_any (np_isnan (fill_masked x)) || np_any (np_isnan (fill_masked y)) = true →
  np_all (is_invalid (fill_masked x)) = false →
  np_all (is_invalid (fill_masked y)) = false →
  interp_meshgrid_2d (fill_masked x) (fill_masked y) = (xi, yi) →
  ∃ xc yc zc r cs,
    crop_if_invalid xi yi (fill_masked z) = (xc, yc, zc)
    ∧ ppcolormesh_from_meshgrid ax x y z kw = draw_grids ax xc yc zc kw
    ∧ ppcolormesh_from_meshgrid ax x y z kw p = (r, add_calls p cs)
    ∧ drawn_from ax xc yc zc (default "viridis" (kw !! "cmap")) cs.
Proof.
  intros Hnan Hx Hy Hi.
  destruct (crop_if_invalid xi yi (fill_masked z)) as [[xc yc] zc] eqn:Hc.
  assert (ppcolormesh_from_meshgrid ax x y z kw = draw_grids ax xc yc zc kw) as Heq.
  { apply (ppcolormesh_reaches_draw _ _ _ _ _ xi yi); try done.
    unfold interp_if_nan. by rewrite Hnan. }
  destruct (draw_grids_drawn ax xc yc zc kw p) as (r & cs & Hrun & Hdrawn).
  exists xc, yc, zc, r, cs. rewrite Heq. by repeat split.
Qed.

(** C4. When [x] or [y] still holds an invalid entry at line 70, that is
    after the interpolation step, [num.crop2d] is applied to the three
    arrays together, and whatever is drawn, scatter or mesh, is drawn from
    the three cropped arrays. *)
Theorem ppcolormesh_crops_before_drawing
    (ax : axes_handle) (x y z : ndarray) (kw : gmap string string)
    (xi yi xc yc zc : ndarray) (p : MPLPlot) :
  np_all (is_invalid (fill_masked x)) = false →
  np_all (is_invalid (fill_masked y)) = false →
  interp_if_nan (fill_masked x) (fill_masked y) = (xi, yi) →
  np_any (is_invalid xi) || np_any (is_invalid yi) = true →
  crop2d xi yi (fill_masked z) = (xc, yc, zc) →
  ppcolormesh_from_meshgrid ax x y z kw = draw_grids ax xc yc zc kw
  ∧ ∃ r cs,
      ppcolormesh_from_meshgrid ax x y z kw p = (r, add_calls p cs)
      ∧ drawn_from ax xc yc zc (default "viridis" (kw !! "cmap")) cs.
Proof.
  intros Hx Hy Hi Hinv Hc.
  assert (ppcolormesh_from_meshgrid ax x y z kw = draw_grids ax xc yc zc kw) as Heq.
  { apply (ppcolormesh_reaches_draw _ _ _ _ _ xi yi); try done.
    unfold crop_if_invalid. by rewrite Hinv. }
  split; [done|]. rewrite Heq. apply draw_grids_drawn.
Qed.
End Ppcolormesh.

Lemma ppcolormesh_interpolates_before_drawing_witness :
  ∃ xc yc zc r cs,
    crop_if_invalid (H := Sample.stand_ins) Sample.gx_gap Sample.gy_gap
      (fill_masked (Sample.gz 3)) = (xc, yc, zc)
    ∧ ppcolormesh_from_meshgrid (H := Sample.stand_ins) (Subplot 1 1 1)
        Sample.gx_gap Sample.gy_gap (Sample.gz 3) ∅
      = draw_grids (H := Sample.stand_ins) (Subplot 1 1 1) xc yc zc ∅
    ∧ ppcolormesh_from_meshgrid (H := Sample.stand_ins) (Subplot 1 1 1)
        Sample.gx_gap Sample.gy_gap (Sample.gz 3) ∅ Sample.blank
      = (r, add_calls Sample.blank cs)
    ∧ drawn_from (H := Sample.stand_ins) (Subplot 1 1 1) xc yc zc
        (default "viridis" ((∅ : gmap string string) !! "cmap")) cs.
Proof.
  apply (ppcolormesh_interpolates_before_drawing (H := Sample.stand_ins)
           (Subplot 1 1 1) Sample.gx_gap Sample.gy_gap (Sample.gz 3) ∅
           Sample.gx_gap Sample.gy_gap Sample.blank); reflexivity.
Defined.

Lemma ppcolormesh_crops_before_drawing_witness :
  ppcolormesh_from_meshgrid (H := Sample.stand_ins) (Subplot 1 1 1)
    Sample.gx_gap Sample.gy_gap (Sample.gz 3) ∅
  = draw_grids (H := Sample.stand_ins) (Subplot 1 1 1)
      (Sample.gx 2) (Sample.gy 2) (Sample.gz 2) ∅
  ∧ ∃ r cs,
      ppcolormesh_from_meshgrid (H := Sample.stand_ins) (Subplot 1 1 1)
        Sample.gx_gap Sample.gy_gap (Sample.gz 3) ∅ Sample.blank
      = (r, add_calls Sample.blank cs)
      ∧ drawn_from (H := Sample.stand_ins) (Subplot 1 1 1)
          (Sample.gx 2) (Sample.gy 2) (Sample.gz 2)
          (default "viridis" ((∅ : gmap string string) !! "cmap")) cs.
Proof.
  apply (ppcolormesh_crops_before_drawing (H := Sample.stand_ins)
           (Subplot 1 1 1) Sample.gx_gap Sample.gy_gap (Sample.gz 3) ∅
           Sample.gx_gap Sample.gy_gap); reflexivity.
Defined.

(** On the sample grid with an unmeasured last row, the mesh is drawn over
    the two measured rows. *)
Example ppcolormesh_gap_run :
  ppcolormesh_from_meshgrid (H := Sample.stand_ins) (Subplot 1 1 1)
    Sample.gx_gap Sample.gy_gap (Sample.gz 3) ∅ Sample.blank
  = (Ok (Some QuadMesh),
     Canvas [AxPcolormesh (Subplot 1 1 1) (Sample.gx 2) (Sample.gy 2) (Sample.gz 2) "viridis";
             AxSetXlimMinMax (Subplot 1 1 1) (Sample.gx 2);
             AxSetYlimMinMax (Subplot 1 1 1) (Sample.gy 2)] []).
Proof. reflexivity. Qed.

(** ** setData: the plots *)

Lemma tuple_min_ge_2 (n : nat) (t : list nat) :
  2 ≤ foldr Nat.min n t ↔ Forall (λ k, 2 ≤ k) (n :: t).
Proof.
  induction t as [|k t IH]; simpl.
  - split; [intros; by repeat constructor | by intros [? _]%Forall_cons].
  - rewrite Nat.min_glb_iff, IH, !Forall_cons. tauto.
Qed.

Lemma grid_size_pos (shape : list nat) :
  Forall (λ k, 2 ≤ k) shape → 1 ≤ foldr Nat.mul 1 shape.
Proof. induction 1; simpl; [lia | nia]. Qed.

Lemma check_grid_step (g : ndarray) :
  ((arr_size g =? 0) = false
   ∧ (length (arr_shape g) <? 2) = false
   ∧ (default 0 (tuple_min (arr_shape g)) <? 2) = false)
  ↔ is_grid g.
Proof.
  unfold is_grid, arr_size.
  rewrite Nat.eqb_neq, !Nat.ltb_ge.
  destruct (arr_shape g) as [|n t]; simpl; [split; lia|].
  rewrite (tuple_min_ge_2 n t). split.
  - tauto.
  - intros [Hlen Hall]. split; [|done].
    pose proof (grid_size_pos (n :: t) Hall) as Hpos. simpl in Hpos. lia.
Qed.

Lemma field_lookup (d : dataset) (n : string) :
  is_Some (dd_values d !! n) → dd_values d !! n = Some (field d n).
Proof. intros [a Ha]. unfold field. by rewrite Ha. Qed.


Section Plots.
Context `{Externals}.









End Plots.

(** ** setData: the two-axes branch *)


Section Strategy.
Context `{Externals}.

(** The conversion of lines 234-236 returns, and touches nothing, unless it
    is asked for the minimum of the empty shape. *)
Lemma flatten_thin_grid_run (d : dataset) (axesNames : list string)
    (shape : list nat) (p : MPLPlot) :
  (length axesNames = 2 → is_meshgrid d = true → shape ≠ []) →
  flatten_thin_grid d axesNames shape p
  = (Ok (if (length axesNames =? 2) && is_meshgrid d
            && (default 0 (tuple_min shape) <? 2)
         then meshgrid_to_datadict d else d), p).
Proof.
  intros Hdim. unfold flatten_thin_grid.
  destruct ((length axesNames =? 2) && is_meshgrid d) eqn:Hc; [|done].
  apply andb_true_iff in Hc as [Hc1 Hc2]. apply Nat.eqb_eq in Hc1.
  destruct shape as [|k shape]; [by destruct (Hdim Hc1 Hc2)|].
  erewrite bind_ok by reflexivity. cbn [andb tuple_min from_option id].
  by destruct (foldr Nat.min k shape <? 2).
Qed.


(** What the two-axes branch does as the source stands: the grid numbers
    are floats, [add_subplot] refuses them, and [setData] ends in
    [ValueError] with the figure cleared and no axes. *)
Lemma setData_two_axes_run (d : dataset) (n0 xn yn : string) (shape : list nat)
    (p : MPLPlot) :
  dd_axes d = [xn; yn] →
  dd_dependents d !! 0 = Some n0 →
  dd_shapes d !! n0 = Some shape →
  0 ∉ shape →
  (is_meshgrid d = true → shape ≠ []) →
  setData (Some d) p = (Raise ValueError, Canvas [] []).
Proof.
  intros Hax Hn0 Hshape Hnz Hdim. unfold setData.
  erewrite bind_ok by (by eapply first_shape_run).
  rewrite decide_False by done.
  erewrite bind_ok by (apply flatten_thin_grid_run; intros _; exact Hdim).
  assert (1 ≤ length (dd_dependents d)) as Hn.
  { destruct (dd_dependents d); [done | simpl; lia]. }
  rewrite Hax. cbn [length Nat.eqb orb].
  replace (length (dd_dependents d) =? 0) with false
    by (symmetry; apply Nat.eqb_neq; lia).
  apply bind_raise. unfold py_truediv. rewrite nrows_nonzero by done.
  erewrite bind_ok by reflexivity.
  apply bind_raise. by apply clearFig_float_raise.
Qed.
End Strategy.

Section Selection.
Context `{Externals}.


End Selection.



(** A grid of two rows and two columns is drawn as a pseudocolor mesh. *)
Example plot_dependents_two_row_meshgrid_run :
  plot_dependents (H := Sample.stand_ins) (Sample.mesh_data 2)
    [Subplot 1 1 1] ["x"; "y"] ["z"] Sample.blank
  = (Ok (),
     Canvas
       [AxPcolormesh (Subplot 1 1 1) (Sample.gx 2) (Sample.gy 2) (Sample.gz 2) "viridis";
        AxSetXlimMinMax (Subplot 1 1 1) (Sample.gx 2);
        AxSetYlimMinMax (Subplot 1 1 1) (Sample.gy 2);
        Colorbar (Subplot 1 1 1) QuadMesh;
        AxSetTitle (Subplot 1 1 1) "z";
        AxSetYlabel (Subplot 1 1 1) "y";
        AxSetXlabel (Subplot 1 1 1) "x";
        CaxSetYlabel (Subplot 1 1 1) "z"]
       []).
Proof. reflexivity. Qed.

(** One axis, two dependents of a plain [DataDict]: markers only. *)
Example setData_line_run :
  setData (H := Sample.stand_ins) (Some (Sample.line_data DataDict)) Sample.blank
  = (Ok (),
     Canvas
       [AddSubplot 1 1 1; SubplotsAdjust; Draw;
        AxPlot (Subplot 1 1 1) Sample.xs3 Sample.ys3 "o" "y1";
        AxPlot (Subplot 1 1 1) Sample.xs3 Sample.zs3 "o" "y2";
        AxSetYlabel (Subplot 1 1 1) "y1; y2";
        AxSetXlabel (Subplot 1 1 1) "x";
        AxLegend (Subplot 1 1 1);
        SubplotsAdjust; SubplotsAdjust; Draw]
       [Subplot 1 1 1]).
Proof. reflexivity. Qed.

(** ** setData: the grid of the two-axes branch *)

(** C5 (code bug). Five dependents over two axes.  [nrows] is 2.0, the
    floor of the square root of 5, and [ncols] is 3.0, the ceiling of
    5 / 2.0; the five axes fit the grid, so [clearFig] passes its own test.
    But both numbers are floats, [clearFig] hands them to [add_subplot] as
    they are, and [add_subplot] raises [ValueError] at the first subplot:
    [clearFig] raises where it should not, no dependent gets an axis, and
    [setData] ends in that [ValueError] with the figure cleared. *)
Theorem two_axes_grid_is_refused_by_add_subplot :
  let nrows := py_floordiv_1 (py_pow_half (float_of_int 5)) in
  let ncols := np_ceil (SFdiv prec64 emax64 (float_of_int 5) nrows) in
  nrows = float_of_int 2
  ∧ py_truediv 5 nrows Sample.blank
    = (Ok (SFdiv prec64 emax64 (float_of_int 5) nrows), Sample.blank)
  ∧ ncols = float_of_int 3
  ∧ too_many_axes 5 nrows ncols = false
  ∧ clearFig nrows ncols 5 Sample.blank = (Raise ValueError, Canvas [] [])
  ∧ setData (H := Sample.stand_ins)
      (Some (Sample.scatter_many ["a"; "b"; "c"; "d"; "e"])) Sample.blank
    = (Raise ValueError, Canvas [] []).
Proof. repeat split; reflexivity. Qed.

(** The same happens with a single dependent, on a grid of 1.0 x 1.0. *)
Example setData_scatter_run :
  setData (H := Sample.stand_ins) (Some Sample.scatter_data) Sample.blank
  = (Raise ValueError, Canvas [] []).
Proof. reflexivity. Qed.

(** The number of rows is computed in doubles: from 2^52 + 2^27 dependents
    on, the square root rounds up to the next integer, and [nrows] is one
    more than the integer square root. *)
Example nrows_is_computed_in_doubles :
  py_floordiv_1 (py_pow_half (float_of_int (2 ^ 52 + 2 ^ 27)))
  = float_of_int 67108865
  ∧ Z.sqrt (2 ^ 52 + 2 ^ 27) = 67108864%Z.
Proof. split; reflexivity. Qed.

(** * Further properties of the module *)

(** ** clearFig and the construction of the canvas *)

Lemma clearFig_from_blank {N} {G : GridNumber N} (nrows ncols : N) naxes p :
  clearFig nrows ncols naxes p = clearFig nrows ncols naxes (Canvas [] []).
Proof. reflexivity. Qed.

(** X1. [clearFig] starts from scratch: its result, its exception and the
    canvas it leaves do not depend on what the canvas showed or which axes
    it held before the call. *)
Theorem clearFig_forgets_previous_figure (nrows ncols naxes : nat) (p p' : MPLPlot) :
  clearFig nrows ncols naxes p = clearFig nrows ncols naxes p'.
Proof. by rewrite (clearFig_from_blank _ _ _ p), (clearFig_from_blank _ _ _ p'). Qed.

(** X2. A [clearFig] that fails has already cleared the figure: when
    [naxes] exceeds the grid, the canvas is left without any content and
    with an empty [self.axes], whatever it showed before. *)
Theorem clearFig_failure_leaves_empty_canvas (nrows ncols naxes : nat) (p : MPLPlot) :
  nrows * ncols < naxes →
  clearFig nrows ncols naxes p = (Raise ValueError, Canvas [] []).
Proof. apply clearFig_raise. Qed.

Lemma clearFig_failure_leaves_empty_canvas_witness :
  clearFig 1 1 2 (Canvas [AddSubplot 1 1 1; SubplotsAdjust; Draw] [Subplot 1 1 1])
  = (Raise ValueError, Canvas [] []).
Proof. apply (clearFig_failure_leaves_empty_canvas 1 1 2). simpl. lia. Defined.

(** X3. [MPLPlot(nrows=.., ncols=..)] creates exactly one subplot, the
    first cell of the grid, however large the grid is; with an empty grid
    ([nrows * ncols = 0]) the constructor raises [ValueError]. *)
Theorem MPLPlot_init_creates_one_subplot (nrows ncols : nat) :
  MPLPlot_init nrows ncols
  = if nrows * ncols =? 0
    then (Raise ValueError, Canvas [] [])
    else (Ok (), Canvas [AddSubplot nrows ncols 1; SubplotsAdjust; Draw]
                        [Subplot nrows ncols 1]).
Proof.
  unfold MPLPlot_init. destruct (nrows * ncols =? 0) eqn:Hz.
  - apply Nat.eqb_eq in Hz. apply bind_raise, clearFig_raise. lia.
  - apply Nat.eqb_neq in Hz. erewrite bind_ok by (apply clearFig_ok; lia). done.
Qed.

(** ** PlotNode.process *)

(** X4. Called without a [dataIn] keyword, [PlotNode.process] raises
    [KeyError] and emits nothing on [newPlotData], whatever other keywords
    it was given. *)
Theorem process_without_dataIn_is_KeyError {V : Type}
    (kw : gmap string V) (emitted : list V) :
  kw !! "dataIn" = None →
  process kw emitted = (Raise KeyError, emitted).
Proof.
  intros Hin. unfold process. apply bind_raise.
  unfold py_getitem. by rewrite Hin.
Qed.

Lemma process_without_dataIn_is_KeyError_witness :
  process ({[ "data" := Sample.scatter_data ]} : gmap string dataset) []
  = (Raise KeyError, []).
Proof.
  apply (process_without_dataIn_is_KeyError {[ "data" := Sample.scatter_data ]} []).
  reflexivity.
Defined.

(** ** setData: the cases without a plot *)

Section SetDataEdges.
Context `{Externals}.

(** X5. Data without points is not an error and does not touch the canvas:
    when the shape of the first dependent has a zero, [setData] returns
    and the previous figure stays, however many axes the dataset has. *)
Theorem setData_without_points_keeps_figure
    (d : dataset) (n0 : string) (shape : list nat) (p : MPLPlot) :
  dd_dependents d !! 0 = Some n0 →
  dd_shapes d !! n0 = Some shape →
  0 ∈ shape →
  setData (Some d) p = (Ok (), p).
Proof.
  intros Hn0 Hshape Hz. unfold setData.
  erewrite bind_ok by (by eapply first_shape_run).
  by rewrite decide_True.
Qed.

(** X6. A dataset with dependents but no independent axis empties the
    figure: [setData] clears it, creates no subplot, and draws nothing. *)
Theorem setData_without_axes_empties_figure
    (d : dataset) (n0 : string) (shape : list nat) (p : MPLPlot) :
  dd_axes d = [] →
  dd_dependents d !! 0 = Some n0 →
  dd_shapes d !! n0 = Some shape →
  0 ∉ shape →
  setData (Some d) p
  = (Ok (), Canvas [SubplotsAdjust; Draw; SubplotsAdjust; Draw] []).
Proof.
  intros Hax Hn0 Hshape Hnz. unfold setData.
  erewrite bind_ok by (by eapply first_shape_run).
  rewrite decide_False by done. rewrite Hax. cbn [length Nat.eqb andb orb].
  erewrite bind_ok by reflexivity.
  erewrite bind_ok; cycle 1.
  { erewrite bind_ok by (apply clearFig_ok; lia). reflexivity. }
  by erewrite bind_ok by reflexivity.
Qed.
End SetDataEdges.

Lemma setData_without_points_keeps_figure_witness :
  setData (H := Sample.stand_ins) (Some (Sample.cube_data 0))
    (Canvas [AddSubplot 1 1 1; SubplotsAdjust; Draw] [Subplot 1 1 1])
  = (Ok (), Canvas [AddSubplot 1 1 1; SubplotsAdjust; Draw] [Subplot 1 1 1]).
Proof.
  apply (setData_without_points_keeps_figure (H := Sample.stand_ins)
           (Sample.cube_data 0) "d" [0]); [reflexivity | reflexivity | by left].
Defined.

Lemma setData_without_axes_empties_figure_witness :
  setData (H := Sample.stand_ins) (Some Sample.scalar_data)
    (Canvas [AddSubplot 1 1 1; SubplotsAdjust; Draw] [Subplot 1 1 1])
  = (Ok (), Canvas [SubplotsAdjust; Draw; SubplotsAdjust; Draw] []).
Proof.
  apply (setData_without_axes_empties_figure (H := Sample.stand_ins)
           Sample.scalar_data "s" []);
    [reflexivity | reflexivity | reflexivity | apply not_elem_of_nil].
Defined.

(** ** setData: the exceptions it can raise *)












Section Exceptions.
Context `{Externals}.




End Exceptions.

(** ** setData: a new plot replaces the old one *)

Lemma bind_same_state {S A B} (m : py S A) (k : A → py S B) s s' :
  m s = m s' → (m ≫= k) s = (m ≫= k) s'.
Proof. intros Hm. unfold mbind, py_mbind, py_bind. by rewrite Hm. Qed.

Lemma ret_bind {S A B} (a : A) (k : A → py S B) s : (mret a ≫= k) s = k a s.
Proof. reflexivity. Qed.

Section Redraw.
Context `{Externals}.

Lemma setData_from_blank (d : dataset) (n0 : string) (shape : list nat) (p : MPLPlot) :
  length (dd_axes d) ≤ 2 →
  dd_dependents d !! 0 = Some n0 →
  dd_shapes d !! n0 = Some shape →
  0 ∉ shape →
  (length (dd_axes d) = 2 → is_meshgrid d = true → shape ≠ []) →
  setData (Some d) p = setData (Some d) (Canvas [] []).
Proof.
  intros Hlen Hn0 Hshape Hnz Hdim. unfold setData.
  rewrite (bind_ok _ _ p _ _ (first_shape_run d n0 shape p Hn0 Hshape)).
  rewrite (bind_ok _ _ (Canvas [] []) _ _
             (first_shape_run d n0 shape (Canvas [] []) Hn0 Hshape)).
  rewrite decide_False by done.
  rewrite (bind_ok _ _ p _ _ (flatten_thin_grid_run d _ shape p Hdim)).
  rewrite (bind_ok _ _ (Canvas [] []) _ _
             (flatten_thin_grid_run d _ shape (Canvas [] []) Hdim)).
  assert (1 ≤ length (dd_dependents d)) as Hn.
  { destruct (dd_dependents d); [done | simpl; lia]. }
  replace (length (dd_dependents d) =? 0) with false
    by (symmetry; apply Nat.eqb_neq; lia).
  rewrite orb_false_r. apply bind_same_state.
  destruct (length (dd_axes d)) as [|[|[|n]]]; [| | |lia]; cbn [Nat.eqb].
  - apply bind_same_state, clearFig_from_blank.
  - apply bind_same_state, clearFig_from_blank.
  - unfold py_truediv. rewrite nrows_nonzero by done.
    rewrite !ret_bind.
    apply bind_same_state, clearFig_from_blank.
Qed.

(** X8. For a dataset with at most two axes and at least one point,
    [setData] replaces the figure: the canvas it leaves, and what it returns
    or raises, do not depend on what the canvas showed before.  In
    particular, showing the same data again changes nothing. *)
Theorem setData_replaces_previous_figure
    (d : dataset) (n0 : string) (shape : list nat) (p p' : MPLPlot) :
  length (dd_axes d) ≤ 2 →
  dd_dependents d !! 0 = Some n0 →
  dd_shapes d !! n0 = Some shape →
  0 ∉ shape →
  (length (dd_axes d) = 2 → is_meshgrid d = true → shape ≠ []) →
  setData (Some d) p = setData (Some d) p'
  ∧ setData (Some d) (snd (setData (Some d) p)) = setData (Some d) p.
Proof.
  intros Hlen Hn0 Hshape Hnz Hdim.
  assert (∀ q, setData (Some d) q = setData (Some d) (Canvas [] [])) as Hblank.
  { intros q. by eapply setData_from_blank. }
  split.
  - by rewrite (Hblank p), (Hblank p').
  - by rewrite (Hblank (snd _)), (Hblank p).
Qed.
End Redraw.

Lemma setData_replaces_previous_figure_witness :
  setData (H := Sample.stand_ins) (Some (Sample.mesh_data 2)) Sample.blank
  = setData (H := Sample.stand_ins) (Some (Sample.mesh_data 2))
      (Canvas [AddSubplot 1 1 1; SubplotsAdjust; Draw] [Subplot 1 1 1])
  ∧ setData (H := Sample.stand_ins) (Some (Sample.mesh_data 2))
      (snd (setData (H := Sample.stand_ins) (Some (Sample.mesh_data 2)) Sample.blank))
    = setData (H := Sample.stand_ins) (Some (Sample.mesh_data 2)) Sample.blank.
Proof.
  apply (setData_replaces_previous_figure (H := Sample.stand_ins)
           (Sample.mesh_data 2) "z" [2; 2]);
    [simpl; lia | reflexivity | reflexivity | sample_no_zero | done].
Defined.

(** ** _plot1d *)

Lemma append_nil_l (a : string) : "" +:+ a = a.
Proof. reflexivity. Qed.

Lemma append_cons ch (a b : string) : String ch a +:+ b = String ch (a +:+ b).
Proof. reflexivity. Qed.

Lemma append_assoc (a b c : string) : (a +:+ b) +:+ c = a +:+ (b +:+ c).
Proof.
  induction a as [|ch a IH]; [done|]. rewrite !append_cons. by f_equal.
Qed.

Lemma append_nil_r (a : string) : a +:+ "" = a.
Proof. induction a as [|ch a IH]; [done|]. rewrite append_cons. by f_equal. Qed.

Lemma length_append (a b : string) :
  String.length (a +:+ b) = String.length a + String.length b.
Proof.
  induction a as [|ch a IH]; [done|]. rewrite append_cons. simpl. by rewrite IH.
Qed.

Lemma substring_append (a s : string) (m : nat) :
  String.substring 0 (String.length a + m) (a +:+ s) = a +:+ String.substring 0 m s.
Proof.
  induction a as [|ch a IH]; [done|]. rewrite !append_cons. simpl. by rewrite IH.
Qed.

Lemma drop_last2_append (a t : string) :
  2 ≤ String.length t → drop_last2 (a +:+ t) = a +:+ drop_last2 t.
Proof.
  intros Ht. unfold drop_last2. rewrite length_append.
  replace (String.length a + String.length t - 2)
    with (String.length a + (String.length t - 2)) by lia.
  apply substring_append.
Qed.

Lemma drop_last2_labels (labels : list string) :
  drop_last2 (labels_with_sep labels) = String.concat "; " labels.
Proof.
  induction labels as [|l [|l' labels] IH]; [done| |].
  - change (labels_with_sep [l]) with (l +:+ "; " +:+ "").
    rewrite append_nil_r, (drop_last2_append l "; ") by (simpl; lia).
    apply append_nil_r.
  - change (labels_with_sep (l :: l' :: labels))
      with (l +:+ "; " +:+ labels_with_sep (l' :: labels)).
    change (String.concat "; " (l :: l' :: labels))
      with (l +:+ "; " +:+ String.concat "; " (l' :: labels)).
    rewrite <- IH, <- !append_assoc. apply drop_last2_append.
    change (labels_with_sep (l' :: labels))
      with (l' +:+ "; " +:+ labels_with_sep labels).
    rewrite !length_append. simpl. lia.
Qed.

Lemma py_fold_app {S A B} (l1 l2 : list A) (body : B → A → py S B) acc s :
  py_fold (l1 ++ l2) acc body s
  = (acc' ← py_fold l1 acc body; py_fold l2 acc' body) s.
Proof.
  revert acc s. induction l1 as [|x l1 IH]; intros acc s; [done|].
  simpl. unfold mbind, py_mbind, py_bind.
  destruct (body acc x s) as [[acc'|e] s']; [|done]. apply IH.
Qed.

Lemma plot1d_loop_labels (d : dataset) (ax : axes_handle) (a fmt : string)
    (names : list string) :
  has_fields d (a :: names) →
  ∀ (ylabel : string) (nylabels : nat) p, ∃ k,
    py_fold names (ylabel, nylabels) (λ '(ylabel, nylabels) n,
        x ← py_getitem (dd_values d) a;
        y ← py_getitem (dd_values d) n;
        mpl (AxPlot ax x y fmt n) ;;
        if nylabels <? MAXYLABELS
        then mret (ylabel +:+ dd_label d n +:+ "; ", S nylabels)
        else mret (ylabel, nylabels)) p
    = (Ok (ylabel +:+ labels_with_sep
                        (map (dd_label d) (take (MAXYLABELS - nylabels) names)), k),
       add_calls p (map (λ n, AxPlot ax (field d a) (field d n) fmt n) names)).
Proof.
  intros Hf. apply Forall_cons in Hf as [Ha Hnames].
  induction Hnames as [|n names Hn Hnames IH]; intros ylabel nylabels p.
  - exists nylabels. simpl. rewrite take_nil, add_calls_nil. simpl.
    by rewrite append_nil_r.
  - set (acc1 := if nylabels <? MAXYLABELS
                 then (ylabel +:+ dd_label d n +:+ "; ", S nylabels)
                 else (ylabel, nylabels)).
    destruct (IH acc1.1 acc1.2 (add_calls p [AxPlot ax (field d a) (field d n) fmt n]))
      as [k Hk].
    exists k. simpl. erewrite bind_ok; cycle 1.
    { erewrite bind_ok by (apply py_getitem_ok, field_lookup, Ha).
      erewrite bind_ok by (apply py_getitem_ok, field_lookup, Hn).
      erewrite bind_ok by reflexivity.
      instantiate (1 := add_calls p [AxPlot ax (field d a) (field d n) fmt n]).
      instantiate (1 := acc1).
      subst acc1. by destruct (nylabels <? MAXYLABELS). }
    replace acc1 with (acc1.1, acc1.2) by (by destruct acc1).
    rewrite Hk, add_calls_app. f_equal. f_equal. subst acc1.
    destruct (nylabels <? MAXYLABELS) eqn:Hlt; simpl.
    + apply Nat.ltb_lt in Hlt.
      replace (MAXYLABELS - nylabels) with (S (MAXYLABELS - S nylabels)) by lia.
      simpl. by rewrite !append_assoc.
    + apply Nat.ltb_ge in Hlt.
      by replace (MAXYLABELS - nylabels) with 0 by lia.
Qed.

Lemma plot1d_exact
    (d : dataset) (ax : axes_handle) (a : string) (names : list string) (p : MPLPlot) :
  has_fields d (a :: names) →
  _plot1d d ax a names p
  = (Ok (),
     add_calls p
       (map (λ n, AxPlot ax (field d a) (field d n)
                    (if is_meshgrid d then "o-" else "o") n) names
        ++ [AxSetYlabel ax (plot1d_ylabel d names);
            AxSetXlabel ax (dd_label d a); AxLegend ax; SubplotsAdjust])).
Proof.
  intros Hf. unfold _plot1d.
  destruct (plot1d_loop_labels d ax a (if is_meshgrid d then "o-" else "o")
              names Hf "" 0 p) as [k Hloop].
  etrans; [exact (bind_ok _ _ _ _ _ Hloop)|].
  do 3 (erewrite bind_ok by reflexivity).
  unfold autosize. rewrite mpl_run. rewrite Nat.sub_0_r.
  change ("" +:+ ?s) with s. rewrite drop_last2_labels.
  unfold plot1d_ylabel, add_calls. simpl. rewrite <- !app_assoc. simpl.
  destruct (MAXYLABELS <? length names); [done|]. by rewrite append_nil_r.
Qed.

(** X9. [_plot1d] plots every dependent against the axis, in order, and
    labels the y axis with the labels of the first three dependents joined
    by ["; "], followed by ["; [...]"] when there are more than three; then
    it labels the x axis and adds the legend. *)
Theorem plot1d_draws_all_and_labels_three
    (d : dataset) (ax : axes_handle) (a : string) (names : list string) (p : MPLPlot) :
  has_fields d (a :: names) →
  _plot1d d ax a names p
  = (Ok (),
     add_calls p
       (map (λ n, AxPlot ax (field d a) (field d n)
                    (if is_meshgrid d then "o-" else "o") n) names
        ++ [AxSetYlabel ax (plot1d_ylabel d names);
            AxSetXlabel ax (dd_label d a); AxLegend ax; SubplotsAdjust])).
Proof. apply plot1d_exact. Qed.

(** X10. With at least one dependent to plot and no values for the axis,
    [_plot1d] raises [KeyError] before anything is drawn. *)
Theorem plot1d_without_axis_values_is_KeyError
    (d : dataset) (ax : axes_handle) (a : string) (names : list string) (p : MPLPlot) :
  names ≠ [] →
  dd_values d !! a = None →
  _plot1d d ax a names p = (Raise KeyError, p).
Proof.
  intros Hnames Ha. unfold _plot1d. destruct names as [|n names]; [done|].
  apply bind_raise. simpl. apply bind_raise. apply bind_raise.
  unfold py_getitem. by rewrite Ha.
Qed.

(** X11. When the values of a dependent are missing, [_plot1d] raises
    [KeyError] at that dependent: the dependents before it are already
    drawn and stay on the axes, the later ones are not drawn, and neither
    labels nor legend are set. *)
Theorem plot1d_stops_at_missing_dependent
    (d : dataset) (ax : axes_handle) (a n : string) (before after : list string)
    (p : MPLPlot) :
  has_fields d (a :: before) →
  dd_values d !! n = None →
  _plot1d d ax a (before ++ n :: after) p
  = (Raise KeyError,
     add_calls p (map (λ n, AxPlot ax (field d a) (field d n)
                              (if is_meshgrid d then "o-" else "o") n) before)).
Proof.
  intros Hf Hn. unfold _plot1d. apply bind_raise.
  rewrite py_fold_app.
  destruct (plot1d_loop_labels d ax a (if is_meshgrid d then "o-" else "o")
              before Hf "" 0 p) as [k Hloop].
  etrans; [exact (bind_ok _ _ _ _ _ Hloop)|].
  simpl. apply bind_raise.
  apply Forall_cons in Hf as [Ha _].
  erewrite bind_ok by (apply py_getitem_ok, field_lookup, Ha).
  apply bind_raise. unfold py_getitem. by rewrite Hn.
Qed.
Lemma plot1d_draws_all_and_labels_three_witness :
  _plot1d Sample.line_data_five (Subplot 1 1 1) "x"
    ["a"; "b"; "c"; "d"; "e"] Sample.blank
  = (Ok (),
     add_calls Sample.blank
       (map (λ n, AxPlot (Subplot 1 1 1) (field Sample.line_data_five "x")
                    (field Sample.line_data_five n)
                    (if is_meshgrid Sample.line_data_five then "o-" else "o") n)
            ["a"; "b"; "c"; "d"; "e"]
        ++ [AxSetYlabel (Subplot 1 1 1)
              (plot1d_ylabel Sample.line_data_five ["a"; "b"; "c"; "d"; "e"]);
            AxSetXlabel (Subplot 1 1 1) (dd_label Sample.line_data_five "x");
            AxLegend (Subplot 1 1 1); SubplotsAdjust])).
Proof.
  apply (plot1d_draws_all_and_labels_three Sample.line_data_five). sample_fields.
Defined.

(** The y label of five dependents names three of them. *)
Example plot1d_ylabel_of_five :
  plot1d_ylabel Sample.line_data_five ["a"; "b"; "c"; "d"; "e"] = "a; b; c; [...]".
Proof. reflexivity. Qed.

Lemma plot1d_without_axis_values_is_KeyError_witness :
  _plot1d Sample.scatter_data (Subplot 1 1 1) "t" ["z"]
    Sample.blank
  = (Raise KeyError, Sample.blank).
Proof.
  apply plot1d_without_axis_values_is_KeyError;
    [done | reflexivity].
Defined.

Lemma plot1d_stops_at_missing_dependent_witness :
  _plot1d Sample.line_data_incomplete (Subplot 1 1 1) "x"
    (["y1"] ++ "y2" :: []) Sample.blank
  = (Raise KeyError,
     add_calls Sample.blank
       (map (λ n, AxPlot (Subplot 1 1 1) (field Sample.line_data_incomplete "x")
                    (field Sample.line_data_incomplete n)
                    (if is_meshgrid Sample.line_data_incomplete then "o-" else "o") n)
            ["y1"])).
Proof.
  apply (plot1d_stops_at_missing_dependent Sample.line_data_incomplete); [sample_fields | reflexivity].
Defined.

(** ** ppcolormesh_from_meshgrid: what it draws and what it returns *)

(** X12. The loop over [x, y, z] lets the mesh be drawn exactly when each
    of the three arrays is a grid: at least two dimensions, and at least two
    points along every dimension. *)
Theorem check_grids_passes_iff_all_grids (gs : list ndarray) :
  check_grids gs = GridPass ↔ Forall is_grid gs.
Proof.
  induction gs as [|g gs IH]; simpl.
  - split; [by constructor | done].
  - rewrite Forall_cons, <- IH, <- check_grid_step.
    destruct (arr_size g =? 0); [split; [done | by intros [[? _] _]]|].
    destruct (length (arr_shape g) <? 2);
      [split; [done | by intros [(_ & ? & _) _]]|].
    destruct (default 0 (tuple_min (arr_shape g)) <? 2);
      [split; [done | by intros [(_ & _ & ?) _]]|].
    tauto.
Qed.

Section PpcolormeshCases.
Context `{Externals}.

Lemma draw_grids_cases ax x y z kw p :
  draw_grids ax x y z kw p = (Ok None, p)
  ∨ draw_grids ax x y z kw p
    = (Ok (Some PathCollection), add_calls p [AxScatter ax x y z])
  ∨ (kw !! "cmap" = None
     ∧ ∃ xe ye,
         centers2edges_2d x = Some xe ∧ centers2edges_2d y = Some ye
         ∧ draw_grids ax x y z kw p
           = (Ok (Some QuadMesh),
              add_calls p [AxPcolormesh ax xe ye z "viridis";
                           AxSetXlimMinMax ax xe; AxSetYlimMinMax ax ye]))
  ∨ (is_Some (kw !! "cmap") ∧ draw_grids ax x y z kw p = (Raise TypeError, p)).
Proof.
  unfold draw_grids. destruct (check_grids [x; y; z]).
  - by left.
  - right; left. by erewrite bind_ok by apply mpl_run.
  - destruct (centers2edges_2d x) as [xe|]; [|by left].
    destruct (centers2edges_2d y) as [ye|]; [|by left].
    destruct (decide (is_Some (kw !! "cmap"))) as [Hc|Hc].
    + do 3 right. done.
    + right; right; left. apply eq_None_not_Some in Hc. split; [done|].
      exists xe, ye. rewrite Hc. repeat split.
      do 4 (erewrite bind_ok by reflexivity).
      unfold add_calls, mret, py_mret, py_ret. simpl.
      by rewrite <- !app_assoc.
Qed.

Lemma ppcolormesh_cases ax x y z kw p :
  ∃ xc yc zc,
    ppcolormesh_from_meshgrid ax x y z kw p = (Ok None, p)
    ∨ ppcolormesh_from_meshgrid ax x y z kw p
      = (Ok (Some PathCollection), add_calls p [AxScatter ax xc yc zc])
    ∨ (kw !! "cmap" = None
       ∧ ∃ xe ye,
           centers2edges_2d xc = Some xe ∧ centers2edges_2d yc = Some ye
           ∧ ppcolormesh_from_meshgrid ax x y z kw p
             = (Ok (Some QuadMesh),
                add_calls p [AxPcolormesh ax xe ye zc "viridis";
                             AxSetXlimMinMax ax xe; AxSetYlimMinMax ax ye]))
    ∨ (is_Some (kw !! "cmap")
       ∧ ppcolormesh_from_meshgrid ax x y z kw p = (Raise TypeError, p)).
Proof.
  unfold ppcolormesh_from_meshgrid.
  destruct (np_all (is_invalid (fill_masked x)) || np_all (is_invalid (fill_masked y))).
  - exists x, y, z. by left.
  - destruct (interp_if_nan (fill_masked x) (fill_masked y)) as [xi yi].
    destruct (crop_if_invalid xi yi (fill_masked z)) as [[xc yc] zc].
    exists xc, yc, zc. apply draw_grids_cases.
Qed.

(** X13. [ppcolormesh_from_meshgrid] returns a plot exactly when it has
    drawn one, and adds nothing else to the figure: it returns [None] and
    leaves the canvas as it was; or it returns the scatter plot it has
    drawn; or it returns the mesh it has drawn, with the default colormap,
    after which it sets the x and y limits from the mesh edges; or it
    raises [TypeError] and leaves the canvas as it was.  It never touches
    [self.axes]. *)
Theorem ppcolormesh_returns_what_it_draws
    (ax : axes_handle) (x y z : ndarray) (kw : gmap string string) (p : MPLPlot) :
  ∃ xc yc zc,
    ppcolormesh_from_meshgrid ax x y z kw p = (Ok None, p)
    ∨ ppcolormesh_from_meshgrid ax x y z kw p
      = (Ok (Some PathCollection), add_calls p [AxScatter ax xc yc zc])
    ∨ (∃ xe ye,
         centers2edges_2d xc = Some xe ∧ centers2edges_2d yc = Some ye
         ∧ ppcolormesh_from_meshgrid ax x y z kw p
           = (Ok (Some QuadMesh),
              add_calls p [AxPcolormesh ax xe ye zc "viridis";
                           AxSetXlimMinMax ax xe; AxSetYlimMinMax ax ye]))
    ∨ ppcolormesh_from_meshgrid ax x y z kw p = (Raise TypeError, p).
Proof.
  destruct (ppcolormesh_cases ax x y z kw p)
    as (xc & yc & zc & [Hrun | [Hrun | [[_ Hrun] | [_ Hrun]]]]);
    exists xc, yc, zc; auto.
Qed.

(** X14. A [cmap] keyword cannot be used: when [kw] holds [cmap],
    [ppcolormesh_from_meshgrid] never draws a mesh.  Where it would draw
    one, the call of [pcolormesh] gets the keyword twice and raises
    [TypeError]; the only results left are [None], a scatter plot, and that
    error. *)
Theorem ppcolormesh_with_cmap_keyword_draws_no_mesh
    (ax : axes_handle) (x y z : ndarray) (kw : gmap string string) (c : string)
    (p : MPLPlot) :
  kw !! "cmap" = Some c →
  ∃ xc yc zc,
    ppcolormesh_from_meshgrid ax x y z kw p = (Ok None, p)
    ∨ ppcolormesh_from_meshgrid ax x y z kw p
      = (Ok (Some PathCollection), add_calls p [AxScatter ax xc yc zc])
    ∨ ppcolormesh_from_meshgrid ax x y z kw p = (Raise TypeError, p).
Proof.
  intros Hc.
  destruct (ppcolormesh_cases ax x y z kw p)
    as (xc & yc & zc & [Hrun | [Hrun | [[Hnone _] | [_ Hrun]]]]);
    [| | congruence |]; exists xc, yc, zc; auto.
Qed.

(** X15. When the [x] or the [y] coordinates are invalid throughout,
    [_plot2d] leaves the subplot of a [MeshgridDataDict] empty: no mesh, no
    colorbar, no title, no labels. *)
Theorem plot2d_without_valid_coordinates_draws_nothing
    (d : dataset) (ax : axes_handle) (xn yn dn : string) (p : MPLPlot) :
  is_meshgrid d = true →
  has_fields d [xn; yn; dn] →
  np_all (is_invalid (fill_masked (field d xn)))
  || np_all (is_invalid (fill_masked (field d yn))) = true →
  _plot2d d ax xn yn dn p = (Ok (), p).
Proof.
  intros Hcls Hf Hinv. unfold _plot2d.
  apply Forall_cons in Hf as [Hx Hf]. apply Forall_cons in Hf as [Hy Hf].
  apply Forall_cons in Hf as [Hz _].
  do 3 (erewrite bind_ok by (by apply py_getitem_ok, field_lookup)).
  rewrite Hcls. unfold ppcolormesh_from_meshgrid. rewrite Hinv.
  by erewrite bind_ok by reflexivity.
Qed.
End PpcolormeshCases.

Lemma ppcolormesh_with_cmap_keyword_draws_no_mesh_witness :
  ∃ xc yc zc,
    ppcolormesh_from_meshgrid (H := Sample.stand_ins) (Subplot 1 1 1)
      (Sample.gx 2) (Sample.gy 2) (Sample.gz 2) {[ "cmap" := "magma" ]} Sample.blank
    = (Ok None, Sample.blank)
    ∨ ppcolormesh_from_meshgrid (H := Sample.stand_ins) (Subplot 1 1 1)
        (Sample.gx 2) (Sample.gy 2) (Sample.gz 2) {[ "cmap" := "magma" ]} Sample.blank
      = (Ok (Some PathCollection),
         add_calls Sample.blank [AxScatter (Subplot 1 1 1) xc yc zc])
    ∨ ppcolormesh_from_meshgrid (H := Sample.stand_ins) (Subplot 1 1 1)
        (Sample.gx 2) (Sample.gy 2) (Sample.gz 2) {[ "cmap" := "magma" ]} Sample.blank
      = (Raise TypeError, Sample.blank).
Proof.
  apply (ppcolormesh_with_cmap_keyword_draws_no_mesh (H := Sample.stand_ins)
           (Subplot 1 1 1) (Sample.gx 2) (Sample.gy 2) (Sample.gz 2)
           {[ "cmap" := "magma" ]} "magma").
  reflexivity.
Defined.

(** On a regular 2 x 2 grid the keyword makes the call fail. *)
Example ppcolormesh_with_cmap_run :
  ppcolormesh_from_meshgrid (H := Sample.stand_ins) (Subplot 1 1 1)
    (Sample.gx 2) (Sample.gy 2) (Sample.gz 2) {[ "cmap" := "magma" ]} Sample.blank
  = (Raise TypeError, Sample.blank).
Proof. reflexivity. Qed.

Lemma plot2d_without_valid_coordinates_draws_nothing_witness :
  _plot2d (H := Sample.stand_ins) Sample.mesh_data_nan (Subplot 1 1 1) "x" "y" "z"
    Sample.blank
  = (Ok (), Sample.blank).
Proof.
  apply (plot2d_without_valid_coordinates_draws_nothing (H := Sample.stand_ins)
           Sample.mesh_data_nan); [reflexivity | sample_fields | reflexivity].
Defined.

(** X16. After lines 57-62 an array is not masked any more and has kept its
    shape; an entry that was masked reads NaN, and every other entry has
    kept its value. *)
Theorem fill_masked_turns_masked_entries_into_nan (a : ndarray) :
  is_masked (fill_masked a) = false
  ∧ arr_shape (fill_masked a) = arr_shape a
  ∧ (arr_mask a = None → fill_masked a = a)
  ∧ ∀ (m : list bool) (i : nat) (b : bool) (c : float),
      arr_mask a = Some m →
      m !! i = Some b →
      arr_cells a !! i = Some c →
      arr_cells (fill_masked a) !! i = Some (if b then PrimFloat.nan else c).
Proof.
  destruct a as [shape cells [m|]]; unfold fill_masked, is_masked, filled; simpl;
    [|by repeat split].
  destruct (existsb id m) eqn:Hany; simpl.
  - repeat split; try done.
    intros m' i b c [= <-] Hb Hc. rewrite lookup_zip_with, Hb. simpl. by rewrite Hc.
  - rewrite Hany. repeat split; try done.
    intros m' i b c [= <-] Hb Hc. rewrite Hc.
    destruct b; [|done].
    assert (existsb id m = true) as Habs; [|congruence].
    apply existsb_exists. exists true. split; [|done].
    apply list_elem_of_In. by eapply list_elem_of_lookup_2.
Qed.

(** The masked entry of the sample array reads NaN once filled. *)
Example fill_masked_run :
  fill_masked Sample.masked3 = NdArray [3] [1; nan; 3]%float None.
Proof. reflexivity. Qed.

(** ** pcolorgrid *)

Lemma lookup_join_replicate {A} (l : list A) (n i j : nat) :
  i < n → j < length l → mjoin (replicate n l) !! (i * length l + j) = l !! j.
Proof.
  revert i. induction n as [|n IH]; intros i Hi Hj; [lia|].
  simpl. destruct i as [|i]; simpl.
  - by rewrite lookup_app_l.
  - rewrite lookup_app_r by lia.
    replace (length l + i * length l + j - length l) with (i * length l + j) by lia.
    apply IH; lia.
Qed.

Lemma lookup_bind_replicate {A} (l : list A) (m i j : nat) :
  j < m → (l ≫= replicate m) !! (i * m + j) = l !! i.
Proof.
  intros Hj. revert i. induction l as [|x l IH]; intros i; [done|].
  rewrite bind_cons. destruct i as [|i]; simpl.
  - rewrite lookup_app_l by (by rewrite length_replicate).
    by apply lookup_replicate_2.
  - rewrite lookup_app_r by (rewrite length_replicate; lia).
    rewrite length_replicate.
    replace (m + i * m + j - m) with (i * m + j) by lia. apply IH.
Qed.

Lemma length_join_replicate {A} (l : list A) (n : nat) :
  length (mjoin (replicate n l)) = n * length l.
Proof. induction n as [|n IH]; simpl; [done|]. by rewrite length_app, IH. Qed.

Lemma length_bind_replicate {A} (l : list A) (m : nat) :
  length (l ≫= replicate m) = length l * m.
Proof.
  induction l as [|x l IH]; [done|].
  rewrite bind_cons, length_app, length_replicate, IH. simpl. lia.
Qed.

(** X18. [pcolorgrid] returns two arrays of one and the same shape, one row
    per [y] edge and one column per [x] edge, with as many entries as the
    shape says; at row [i] and column [j] the first holds the [j]-th [x] edge
    and the second the [i]-th [y] edge. *)
Theorem pcolorgrid_is_the_grid_of_edges
    (centers2edges_1d : ndarray → ndarray) (xaxis yaxis : ndarray) :
  let xedges := arr_cells (centers2edges_1d xaxis) in
  let yedges := arr_cells (centers2edges_1d yaxis) in
  let xx := fst (pcolorgrid centers2edges_1d xaxis yaxis) in
  let yy := snd (pcolorgrid centers2edges_1d xaxis yaxis) in
  arr_shape xx = [length yedges; length xedges]
  ∧ arr_shape yy = [length yedges; length xedges]
  ∧ length (arr_cells xx) = arr_size xx
  ∧ length (arr_cells yy) = arr_size yy
  ∧ ∀ i j, i < length yedges → j < length xedges →
      arr_cells xx !! (i * length xedges + j) = xedges !! j
      ∧ arr_cells yy !! (i * length xedges + j) = yedges !! i.
Proof.
  unfold pcolorgrid, np_meshgrid, arr_size. simpl.
  split; [done|]. split; [done|].
  split; [rewrite length_join_replicate; lia|].
  split; [rewrite length_bind_replicate; lia|].
  intros i j Hi Hj. split.
  - by apply lookup_join_replicate.
  - by apply lookup_bind_replicate.
Qed.

(** Three centers on each axis, hence four edges each with the sample
    [edges_1d]: both arrays are 4 x 4. *)
Example pcolorgrid_run :
  arr_shape (fst (pcolorgrid Sample.edges_1d Sample.xs3 Sample.ys3)) = [4; 4]
  ∧ arr_cells (snd (pcolorgrid Sample.edges_1d Sample.xs3 Sample.ys3))
    = [10; 10; 10; 10; 20; 20; 20; 20; 30; 30; 30; 30; 30; 30; 30; 30]%float.
Proof. split; reflexivity. Qed.

(** ** setData: the one-axis figure in full *)

Section OneAxis.
Context `{Externals}.

(** X19. With one independent axis, [setData] leaves a figure with a single
    subplot that holds, in this order: a plot of every dependent against
    the axis, the y label made of the first three dependents' labels, the x
    label of the axis and the legend. *)
Theorem setData_one_axis_figure
    (d : dataset) (n0 a : string) (shape : list nat) (p : MPLPlot) :
  dd_axes d = [a] →
  dd_dependents d !! 0 = Some n0 →
  dd_shapes d !! n0 = Some shape →
  0 ∉ shape →
  has_fields d (a :: dd_dependents d) →
  setData (Some d) p
  = (Ok (), one_axis_figure d a (if is_meshgrid d then "o-" else "o")
              (plot1d_ylabel d (dd_dependents d))).
Proof.
  intros Hax Hn0 Hshape Hnz Hf. unfold setData.
  erewrite bind_ok by (by eapply first_shape_run).
  rewrite decide_False by done. rewrite Hax. cbn [length Nat.eqb andb].
  erewrite bind_ok by reflexivity.
  assert (1 ≤ length (dd_dependents d)) as Hn.
  { destruct (dd_dependents d); [done | simpl; lia]. }
  replace (length (dd_dependents d) =? 0) with false
    by (symmetry; apply Nat.eqb_neq; lia).
  cbn [orb].
  erewrite bind_ok; cycle 1.
  { erewrite bind_ok by (by apply clearFig_ok).
    do 2 (erewrite bind_ok by reflexivity).
    by apply plot1d_exact. }
  erewrite bind_ok by reflexivity. rewrite mpl_run.
  unfold one_axis_figure, line_plots, add_calls. simpl. by rewrite <- !app_assoc.
Qed.
End OneAxis.

Lemma setData_one_axis_figure_witness :
  setData (H := Sample.stand_ins) (Some Sample.line_data_five) Sample.blank
  = (Ok (), one_axis_figure Sample.line_data_five "x"
              (if is_meshgrid Sample.line_data_five then "o-" else "o")
              (plot1d_ylabel Sample.line_data_five
                 (dd_dependents Sample.line_data_five))).
Proof.
  apply (setData_one_axis_figure (H := Sample.stand_ins) Sample.line_data_five
           "a" "x" [3]);
    [reflexivity | reflexivity | reflexivity | sample_no_zero | sample_fields].
Defined.
